(** * Office RAG pipeline: guardrails, context assembly and query orchestration

    A shallow embedding of [guardrails.py] and [rag_pipeline.py].

    Conventions of the embedding:
    - Python [str] is [string]; the characters are the ASCII code points, so
      [str.lower] folds [A-Z] only, [\w] is [[A-Za-z0-9_]] and whitespace is
      the ASCII part of [str.isspace].
    - Python [int] is [Z]; Python [float] is the primitive binary64 [float].
    - a metadata [dict] is a [gmap string string], the [seen] set a
      [gset string].
    - the two collaborators reached during a query (the vector store and the
      HTTP client) are section variables; every call made to them is
      recorded in a trace that the pipeline threads through. *)

From Stdlib Require Import ZArith Ascii String List Bool Lia Floats DecimalString.
From stdpp Require Import base list strings gmap.

Open Scope Z_scope.

(** ** Text primitives *)

Module Text.

(** The line feed ["\n"] and the double quote, which have no literal
    spelling inside a string. *)
Definition nl : string := String (ascii_of_nat 10) EmptyString.
Definition dq : string := String (ascii_of_nat 34) EmptyString.

(** [len(s)] *)
Definition len (s : string) : Z := Z.of_nat (String.length s).

Definition lower_char (c : ascii) : ascii :=
  let n := nat_of_ascii c in
  if ((65 <=? n) && (n <=? 90))%nat then ascii_of_nat (n + 32) else c.

(** [s.lower()] *)
Fixpoint lower (s : string) : string :=
  match s with
  | EmptyString => EmptyString
  | String c s' => String (lower_char c) (lower s')
  end.

(** [s.startswith(p)] *)
Fixpoint starts_with (p s : string) : bool :=
  match p, s with
  | EmptyString, _ => true
  | String a p', String b s' => Ascii.eqb a b && starts_with p' s'
  | String _ _, EmptyString => false
  end.

(** [needle in hay] *)
Fixpoint contains (needle hay : string) : bool :=
  starts_with needle hay ||
  match hay with
  | EmptyString => false
  | String _ hay' => contains needle hay'
  end.

(** [str.isspace] on one ASCII character: tab to carriage return, the four
    separators 0x1c-0x1f, and the space. *)
Definition is_space (c : ascii) : bool :=
  let n := nat_of_ascii c in
  ((9 <=? n) && (n <=? 13) || (28 <=? n) && (n <=? 32))%nat.

(** [\w] on one ASCII character. *)
Definition is_word (c : ascii) : bool :=
  let n := nat_of_ascii c in
  ((48 <=? n) && (n <=? 57) || (65 <=? n) && (n <=? 90)
   || (n =? 95) || (97 <=? n) && (n <=? 122))%nat.

Fixpoint lstrip (s : string) : string :=
  match s with
  | EmptyString => EmptyString
  | String c s' => if is_space c then lstrip s' else s
  end.

Fixpoint rstrip (s : string) : string :=
  match s with
  | EmptyString => EmptyString
  | String c s' =>
      match rstrip s' with
      | EmptyString => if is_space c then EmptyString else String c EmptyString
      | r => String c r
      end
  end.

(** [s.strip()] *)
Definition strip (s : string) : string := rstrip (lstrip s).

(** [sep.join(parts)] *)
Fixpoint join (sep : string) (parts : list string) : string :=
  match parts with
  | [] => EmptyString
  | [p] => p
  | p :: rest => p +:+ sep +:+ join sep rest
  end.

(** [str(n)] for an [int]. *)
Definition str_of_int (n : Z) : string := NilZero.string_of_int (Z.to_int n).

(** Every line followed by a line feed, as in a triple-quoted literal. *)
Definition lines (ls : list string) : string :=
  fold_right (fun l acc => l +:+ nl +:+ acc) EmptyString ls.

(** Truthiness of the operands the pipeline tests. *)
Definition truthy_str (s : string) : bool :=
  match s with EmptyString => false | _ => true end.

Definition truthy_list {A} (l : list A) : bool :=
  match l with [] => false | _ => true end.

(** [x or y] for an optional [int]: [None] and [0] are falsy. *)
Definition int_or (x : option Z) (y : Z) : Z :=
  match x with
  | Some v => if v =? 0 then y else v
  | None => y
  end.

(** [sum(len(p) for p in parts)] *)
Definition total_len (parts : list string) : Z :=
  fold_right (fun p acc => len p + acc) 0 parts.

End Text.

(** ** guardrails.py *)

Module Guardrails.
Import Text.

Definition OFFICE_KEYWORDS : list string :=
  [ "office"; "meeting room"; "conference room"; "facility"; "workspace";
    "desk"; "parking"; "cafeteria"; "kitchen"; "lobby"; "reception";
    "floor"; "building"; "elevator"; "restroom"; "break room";
    "policy"; "procedure"; "guideline"; "protocol"; "standard";
    "regulation"; "compliance"; "rule"; "handbook"; "manual";
    "reservation"; "booking"; "schedule"; "calendar"; "appointment";
    "visitor"; "access"; "badge"; "keycard"; "security";
    "equipment"; "supply"; "supplies"; "printer"; "copier"; "scanner";
    "projector"; "whiteboard"; "stationery"; "furniture";
    "document"; "form"; "template"; "report"; "memo"; "notice";
    "announcement"; "newsletter";
    "amenity"; "amenities"; "service"; "resource"; "mail"; "mailroom";
    "cleaning"; "maintenance"; "hvac"; "air conditioning"; "heating";
    "dress code"; "work hours"; "working hours"; "remote work";
    "hybrid"; "attendance"; "leave"; "holiday"; "vacation";
    "onboarding"; "orientation";
    "fire drill"; "emergency"; "evacuation"; "first aid"; "safety" ].

Definition BLOCKED_TOPICS : list string :=
  [ "stock price"; "investment"; "crypto"; "bitcoin";
    "dating"; "relationship";
    "recipe"; "cooking";
    "weather forecast";
    "sports score"; "game score";
    "movie"; "tv show"; "netflix";
    "politics"; "election"; "vote";
    "religion" ].

Definition REFUSAL_OUT_OF_SCOPE : string :=
  "I can only answer questions related to office operations and policies. " +:+
  "Please ask me about office facilities, procedures, equipment, or related topics.".

Definition REFUSAL_NO_CONTEXT : string :=
  "I don't have information about this in the current office documentation. " +:+
  "The topic may not be covered in the documents that have been loaded.".

(** *** The fallback pattern
    [\b(the|our|my|this)\s+(office|room|building|floor|team|department|company)\b],
    matched by [re.search]: a matcher for this one pattern, position by
    position, with the alternatives tried in turn and [\s+] free to stop
    after any non-empty run of whitespace. *)

Definition DETERMINERS : list string := [ "the"; "our"; "my"; "this" ].

Definition OFFICE_NOUNS : list string :=
  [ "office"; "room"; "building"; "floor"; "team"; "department"; "company" ].

(** What is left of [s] after the literal [p], if [s] starts with it. *)
Fixpoint strip_prefix (p s : string) : option string :=
  match p, s with
  | EmptyString, _ => Some s
  | String a p', String b s' =>
      if Ascii.eqb a b then strip_prefix p' s' else None
  | String _ _, EmptyString => None
  end.

Fixpoint last_char (s : string) : option ascii :=
  match s with
  | EmptyString => None
  | String c EmptyString => Some c
  | String _ s' => last_char s'
  end.

Definition first_char (s : string) : option ascii :=
  match s with
  | EmptyString => None
  | String c _ => Some c
  end.

Definition word_at (c : option ascii) : bool :=
  match c with Some a => is_word a | None => false end.

(** [\b] between the character before the position and the rest. *)
Definition word_boundary (prev : option ascii) (rest : string) : bool :=
  xorb (word_at prev) (word_at (first_char rest)).

(** [(office|...|company)\b] at the head of [s]. *)
Definition match_noun (s : string) : bool :=
  existsb (fun noun =>
             match strip_prefix noun s with
             | Some rest => word_boundary (last_char noun) rest
             | None => false
             end) OFFICE_NOUNS.

(** [\s+] followed by the noun group. *)
Fixpoint match_spaces_noun (s : string) : bool :=
  match s with
  | EmptyString => false
  | String c s' => is_space c && (match_noun s' || match_spaces_noun s')
  end.

(** The whole pattern anchored at one position. *)
Definition match_here (prev : option ascii) (s : string) : bool :=
  word_boundary prev s &&
  existsb (fun det =>
             match strip_prefix det s with
             | Some rest => match_spaces_noun rest
             | None => false
             end) DETERMINERS.

Fixpoint search_from (prev : option ascii) (s : string) : bool :=
  match_here prev s ||
  match s with
  | EmptyString => false
  | String c s' => search_from (Some c) s'
  end.

(** [re.search(office_noun_pattern, s)] as a truth value. *)
Definition office_noun_search (s : string) : bool := search_from None s.

Definition is_office_related (question : string)
           (company_terms : option (list string)) : bool :=
  let question_lower := lower question in
  if existsb (fun blocked => contains blocked question_lower) BLOCKED_TOPICS
  then false
  else if existsb (fun keyword => contains keyword question_lower) OFFICE_KEYWORDS
  then true
  else if match company_terms with
          | Some terms =>
              truthy_list terms &&
              existsb (fun term => contains (lower term) question_lower) terms
          | None => false
          end
  then true
  else if office_noun_search question_lower
  then true
  else false.

(** The chunks argument of [validate_response] is only tested for
    emptiness, so the function is generic in the chunk type. *)
Definition hallucination_markers : list string :=
  [ "i don't have access";
    "as an ai";
    "i cannot browse";
    "i'm not able to";
    "my training data" ].

Definition validate_response {C} (response : string)
           (context_chunks : list C) : string :=
  if negb (truthy_list context_chunks) then REFUSAL_NO_CONTEXT
  else
    let response_lower := lower response in
    if existsb (fun marker => contains marker response_lower)
               hallucination_markers
    then REFUSAL_NO_CONTEXT
    else response.

(** Calls [is_office_related] with the question alone. *)
Definition format_guardrail_refusal (question : string) : option string :=
  if negb (is_office_related question None) then Some REFUSAL_OUT_OF_SCOPE
  else None.

End Guardrails.

(** ** rag_pipeline.py *)

Module RagPipeline.
Import Text Guardrails.

(** *** config.py: the settings the pipeline reads *)

Record Settings := {
  ollama_base_url : string;
  ollama_model : string;
  ollama_timeout : Z;
  retrieval_top_k : Z;
  relevance_score_threshold : float;
  max_context_tokens : Z;
  temperature : float
}.

(** The defaults of [class Settings]; 0.3 and 0.1 are written as the
    binary64 values Python reads them as. *)
Definition default_settings : Settings := {|
  ollama_base_url := "http://localhost:11434";
  ollama_model := "mistral";
  ollama_timeout := 120;
  retrieval_top_k := 5;
  relevance_score_threshold := 0x1.3333333333333p-2%float;
  max_context_tokens := 1500;
  temperature := 0x1.999999999999ap-4%float
|}.

(** *** Data *)

(** A retrieved chunk: [{"text", "metadata", "distance"}]. *)
Record Chunk := {
  text : string;
  metadata : gmap string string;
  distance : float
}.

(** [{"role", "content"}] *)
Record Message := { role : string; content : string }.

(** The JSON document posted to [/api/chat]. *)
Record Payload := {
  model : string;
  messages : list Message;
  stream : bool;
  options_temperature : float
}.

(** An HTTP response; [json] is the decoded body, an object of objects
    of strings as far as [call_ollama] reads it. *)
Record Response := {
  status_code : Z;
  resp_text : string;
  json : gmap string (gmap string string)
}.

(** What [requests.post] does, as far as [call_ollama] tells its outcomes
    apart: it raises [requests.ConnectionError] or returns a response. The
    exceptions that [call_ollama] does not catch are followed in
    [Unhandled]. *)
Inductive PostOutcome :=
| ConnectionFailed
| Responded (resp : Response).

(** The dict returned by [query]. *)
Record QueryResult := {
  answer : string;
  sources : list string;
  was_filtered : bool
}.

(** *** Effects: exceptions and the trace of collaborator calls *)

Inductive Exception :=
| ConnectionError (msg : string)
| RuntimeError (msg : string).

Inductive Event :=
| Searched (query : string)
| Posted (url : string) (payload : Payload) (timeout : Z).

Inductive Outcome (A : Type) :=
| Returned (a : A)
| Raised (e : Exception).
Arguments Returned {A} a.
Arguments Raised {A} e.

Definition IO (A : Type) : Type := list Event -> Outcome A * list Event.

Definition ret {A} (a : A) : IO A := fun tr => (Returned a, tr).

Definition raise {A} (e : Exception) : IO A := fun tr => (Raised e, tr).

Definition bind {A B} (m : IO A) (k : A -> IO B) : IO B :=
  fun tr =>
    match m tr with
    | (Returned a, tr') => k a tr'
    | (Raised e, tr') => (Raised e, tr')
    end.

Definition emit (ev : Event) : IO unit := fun tr => (Returned tt, tr ++ [ev]).

Notation "'let*' x := m 'in' k" := (bind m (fun x => k))
  (at level 10, x name, m at level 100, k at level 200).

(** *** Prompt text *)

Definition SYSTEM_PROMPT : string :=
  lines [
    "You are an Office Information Assistant specialized in answering questions ONLY about company office operations, policies, facilities, and documentation. Your knowledge is strictly limited to the provided context from office documents.";
    "";
    "# GUARDRAILS & BOUNDARIES:";
    "1. ONLY answer questions related to:";
    "   - Office policies, procedures, and guidelines";
    "   - Facility information (meeting rooms, equipment, amenities)";
    "   - Employee resources and office services";
    "   - Documented office protocols and standards";
    "   - Company-specific office operations";
    "";
    "2. STRICTLY REFUSE to answer questions about:";
    "   - Personal matters unrelated to office operations";
    "   - Technical IT support beyond basic office equipment";
    "   - Financial, legal, or HR matters unless specifically in office context";
    "   - External topics, news, or unrelated subjects";
    "   - Speculative or hypothetical scenarios outside office scope";
    "";
    "# RESPONSE PROTOCOL:";
    "- Use ONLY information from the provided context";
    "- If context doesn't contain the answer, say: " +:+ dq +:+
      "I don't have information about this in the office documentation." +:+ dq;
    "- If the question is outside office scope, say: " +:+ dq +:+
      "I can only answer questions related to office operations and policies." +:+ dq;
    "- Never speculate or use external knowledge";
    "- Be concise and reference specific office documents when possible"
  ].

(** The separator of [build_context], ["\n\n---\n\n"]. *)
Definition SEPARATOR : string := nl +:+ nl +:+ "---" +:+ nl +:+ nl.

(** [chunk["metadata"].get("filename", "Unknown")] *)
Definition source_of (chunk : Chunk) : string :=
  default "Unknown" (metadata chunk !! "filename").

(** The entry [f"[Source: {source}]\n{text}"] of one chunk. *)
Definition entry_of (chunk : Chunk) : string :=
  "[Source: " +:+ source_of chunk +:+ "]" +:+ nl +:+ text chunk.

(** The [for] loop of [build_context], from a given [context_parts] and
    [total_len]; [budget] is [max_tokens * 4] and the first entry that
    does not fit ends the loop. *)
Fixpoint build_context_loop (budget : Z) (chunks : list Chunk)
         (context_parts : list string) (total_len : Z) : list string :=
  match chunks with
  | [] => context_parts
  | chunk :: rest =>
      let entry := entry_of chunk in
      if total_len + len entry >? budget then context_parts
      else build_context_loop budget rest (context_parts ++ [entry])
                              (total_len + len entry)
  end.

Definition build_prompt (context question : string) : list Message :=
  let user_content :=
    "# CONTEXT FROM OFFICE DOCUMENTS:" +:+ nl +:+
    context +:+ nl +:+
    nl +:+
    "# QUESTION:" +:+ nl +:+
    question +:+ nl +:+
    nl +:+
    "Answer the question using ONLY the context above. If the answer is not in the context, say you don't have that information." in
  [ {| role := "system"; content := SYSTEM_PROMPT |};
    {| role := "user"; content := user_content |} ].

(** The [for s in sources] loop of [query]: [seen] is the set, [unique_sources]
    the list built so far. *)
Fixpoint dedup_loop (sources : list string) (seen : gset string)
         (unique_sources : list string) : list string :=
  match sources with
  | [] => unique_sources
  | s :: rest =>
      if decide (s ∈ seen) then dedup_loop rest seen unique_sources
      else dedup_loop rest ({[ s ]} ∪ seen) (unique_sources ++ [s])
  end.

Section Collaborators.

(** [config.settings], the vector store's [search] and [requests.post]. *)
Variable settings : Settings.
Variable search : string -> list Chunk.
Variable requests_post : string -> Payload -> Z -> PostOutcome.

Definition build_context (chunks : list Chunk) (max_tokens : option Z) : string :=
  let max_tokens := int_or max_tokens (max_context_tokens settings) in
  join SEPARATOR (build_context_loop (max_tokens * 4) chunks [] 0).

Definition call_ollama (messages : list Message) : IO string :=
  let url := ollama_base_url settings +:+ "/api/chat" in
  let payload := {| model := ollama_model settings;
                    messages := messages;
                    stream := false;
                    options_temperature := temperature settings |} in
  let* _ := emit (Posted url payload (ollama_timeout settings)) in
  match requests_post url payload (ollama_timeout settings) with
  | ConnectionFailed =>
      raise (ConnectionError
               ("Cannot connect to Ollama at " +:+ ollama_base_url settings +:+ ". " +:+
                "Make sure Ollama is running (ollama serve)."))
  | Responded resp =>
      if negb (status_code resp =? 200) then
        raise (RuntimeError
                 ("Ollama returned status " +:+ str_of_int (status_code resp) +:+
                  ": " +:+ resp_text resp))
      else
        let data := json resp in
        ret (strip (default "" (default ∅ (data !! "message") !! "content")))
  end.

(** The relevance filter of [query]: the list comprehension over
    [c["distance"] <= 1 - threshold]. *)
Definition relevant (c : Chunk) : bool :=
  (distance c <=? 1 - relevance_score_threshold settings)%float.

Definition filter_chunks (chunks : list Chunk) : list Chunk :=
  List.filter relevant chunks.

Definition vector_store_search (query : string) : IO (list Chunk) :=
  let* _ := emit (Searched query) in
  ret (search query).

Definition query (question : string) (company_terms : option (list string))
  : IO QueryResult :=
  (* Step 1: guardrail check *)
  let refusal := format_guardrail_refusal question in
  let retrieve_and_generate : IO QueryResult :=
    (* Step 2: retrieve and filter *)
    let enhanced_query := "office information: " +:+ question in
    let* chunks := vector_store_search enhanced_query in
    let filtered_chunks := filter_chunks chunks in
    if negb (truthy_list filtered_chunks) then
      ret {| answer := REFUSAL_NO_CONTEXT; sources := []; was_filtered := false |}
    else
      (* Step 3: context and prompt *)
      let context := build_context filtered_chunks None in
      let messages := build_prompt context question in
      (* Step 4: generate *)
      let* raw_response := call_ollama messages in
      (* Step 5: validate, then collect the sources *)
      let final_response := validate_response raw_response filtered_chunks in
      let sources := map source_of filtered_chunks in
      let unique_sources := dedup_loop sources ∅ [] in
      ret {| answer := final_response;
             sources := unique_sources;
             was_filtered := false |} in
  match refusal with
  | Some r =>
      if truthy_str r then
        ret {| answer := r; sources := []; was_filtered := true |}
      else retrieve_and_generate
  | None => retrieve_and_generate
  end.

End Collaborators.

End RagPipeline.

(** ** Notions used to state the properties *)

Module Notions.
Import Text Guardrails RagPipeline.

(** [needle] occurs in [hay]: the meaning of Python's [in] on strings. *)
Definition substring (needle hay : string) : Prop :=
  exists pre post, hay = pre +:+ needle +:+ post.

(** Names for the intermediate values of [query]. *)
Definition enhanced_query (question : string) : string :=
  "office information: " +:+ question.

Definition retrieved (settings : Settings) (search : string -> list Chunk)
           (question : string) : list Chunk :=
  filter_chunks settings (search (enhanced_query question)).

Definition chat_url (settings : Settings) : string :=
  ollama_base_url settings +:+ "/api/chat".

Definition chat_payload (settings : Settings) (question : string)
           (filtered : list Chunk) : Payload :=
  {| model := ollama_model settings;
     messages := build_prompt (build_context settings filtered None) question;
     stream := false;
     options_temperature := temperature settings |}.

(** What the generation endpoint does with the request of this query. *)
Definition generation (settings : Settings) (search : string -> list Chunk)
           (requests_post : string -> Payload -> Z -> PostOutcome)
           (question : string) : PostOutcome :=
  requests_post (chat_url settings)
                (chat_payload settings question (retrieved settings search question))
                (ollama_timeout settings).

Definition raw_text (resp : Response) : string :=
  strip (default "" (default ∅ (json resp !! "message") !! "content")).

Definition unreachable (settings : Settings) : Exception :=
  ConnectionError ("Cannot connect to Ollama at " +:+ ollama_base_url settings +:+ ". " +:+
                   "Make sure Ollama is running (ollama serve).").

Definition bad_status (resp : Response) : Exception :=
  RuntimeError ("Ollama returned status " +:+ str_of_int (status_code resp) +:+
                ": " +:+ resp_text resp).

Definition out_of_scope_result : QueryResult :=
  {| answer := REFUSAL_OUT_OF_SCOPE; sources := []; was_filtered := true |}.

Definition no_context_result : QueryResult :=
  {| answer := REFUSAL_NO_CONTEXT; sources := []; was_filtered := false |}.

Definition done_result (filtered : list Chunk) (resp : Response) : QueryResult :=
  {| answer := validate_response (raw_text resp) filtered;
     sources := dedup_loop (map source_of filtered) ∅ [];
     was_filtered := false |}.

(** Number of generation requests recorded in a trace. *)
Fixpoint posts (tr : list Event) : nat :=
  match tr with
  | [] => 0%nat
  | Posted _ _ _ :: tr' => S (posts tr')
  | Searched _ :: tr' => posts tr'
  end.

(** Position of the first occurrence of [x] in [l]. *)
Fixpoint first_index (x : string) (l : list string) : option nat :=
  match l with
  | [] => None
  | y :: l' => if decide (x = y) then Some 0%nat
               else option_map S (first_index x l')
  end.

(** The trace after the search, and after the generation request. *)
Definition searched (question : string) (tr : list Event) : list Event :=
  tr ++ [Searched (enhanced_query question)].

Definition posted (settings : Settings) (search : string -> list Chunk)
           (question : string) (tr : list Event) : list Event :=
  searched question tr
  ++ [Posted (chat_url settings)
             (chat_payload settings question (retrieved settings search question))
             (ollama_timeout settings)].

End Notions.

(** ** Concrete chunks and collaborators for the scenarios *)

Module Scenarios.
Import Text Guardrails RagPipeline.

(** Two chunks of twenty characters each against a budget of forty. *)
Definition two_chunks : list Chunk :=
  [ {| text := "12345678"; metadata := {[ "filename" := "a" ]};
       distance := 0%float |};
    {| text := "abcdefgh"; metadata := {[ "filename" := "b" ]};
       distance := 0%float |} ].

Definition chunk_of (name body : string) (d : float) : Chunk :=
  {| text := body; metadata := {[ "filename" := name ]}; distance := d |}.

Definition reply (status : Z) (said : string) : Response :=
  {| status_code := status;
     resp_text := said;
     json := {[ "message" := {[ "content" := said ]} ]} |}.

(** A store holding three near chunks of two files. *)
Definition store_abc (_ : string) : list Chunk :=
  [ chunk_of "a.pdf" "Business casual on weekdays." 0x1.999999999999ap-3%float;
    chunk_of "b.pdf" "Jeans are fine on Fridays." 0x1.3333333333333p-2%float;
    chunk_of "a.pdf" "No open-toed shoes in the lab." 0x1.6666666666666p-1%float ].

(** A store whose chunks are all at distance 0.9. *)
Definition store_far (_ : string) : list Chunk :=
  [ chunk_of "a.pdf" "Parking opens at seven." 0x1.ccccccccccccdp-1%float;
    chunk_of "b.pdf" "The lobby closes at nine." 0x1.ccccccccccccdp-1%float ].

(** A store whose only chunk carries no filename. *)
Definition store_anonymous (_ : string) : list Chunk :=
  [ {| text := "Badges are issued at reception."; metadata := ∅;
       distance := 0x1.999999999999ap-3%float |} ].

Definition answers (said : string) (_ : string) (_ : Payload) (_ : Z) : PostOutcome :=
  Responded (reply 200 said).

Definition overloaded (_ : string) (_ : Payload) (_ : Z) : PostOutcome :=
  Responded (reply 503 "busy").

Definition offline (_ : string) (_ : Payload) (_ : Z) : PostOutcome :=
  ConnectionFailed.

Definition dress_code : string := "What is the dress code policy?".

End Scenarios.

(** ** vector_store.py *)

Module VectorStore.
Import Text RagPipeline.

(** A LangChain [Document]: [page_content] and [metadata]. *)
Record Document := {
  page_content : string;
  doc_metadata : gmap string string
}.

Definition Embedding : Type := list float.

(** What [collection.query] returns for the three included fields: one inner
    list per query embedding. *)
Record QueryResults := {
  documents : list (list string);
  metadatas : list (list (gmap string string));
  distances : list (list float)
}.

(** The arguments of one [collection.upsert] call. *)
Record Upsert := {
  ids : list string;
  up_documents : list string;
  up_embeddings : list Embedding;
  up_metadatas : list (gmap string string)
}.

(** [l[start:stop]] for [0 <= start <= stop]; the slice is cut at the end of
    the list. *)
Definition slice {A} (l : list A) (start stop : nat) : list A :=
  take (stop - start) (drop start l).

(** [range(start, stop, step)] for a positive [step]; [fuel] bounds the
    number of elements and [stop] is always enough. *)
Fixpoint range_from (fuel start stop step : nat) : list nat :=
  match fuel with
  | O => []
  | S fuel' =>
      if (start <? stop)%nat then start :: range_from fuel' (start + step) stop step
      else []
  end.

Definition range_step (stop step : nat) : list nat := range_from stop 0 stop step.

(** [zip(texts, metas, dists)], as long as the shortest of the three. *)
Fixpoint zip3 (texts : list string) (metas : list (gmap string string))
         (dists : list float) : list Chunk :=
  match texts, metas, dists with
  | t :: texts', m :: metas', d :: dists' =>
      {| text := t; metadata := m; distance := d |} :: zip3 texts' metas' dists'
  | _, _, _ => []
  end.

(** [enumerate(l)] mapped through [f], counting from [i]. *)
Fixpoint enumerate_from {A B} (f : nat -> A -> B) (i : nat) (l : list A) : list B :=
  match l with
  | [] => []
  | x :: l' => f i x :: enumerate_from f (S i) l'
  end.

Definition BATCH_SIZE : nat := 500.

Section Store.

(** [config.settings], the sentence embedder, the Chroma collection's
    [query], and Python's [hash] on strings. *)
Variable settings : Settings.
Variable encode : list string -> list Embedding.
Variable collection_query : list Embedding -> Z -> QueryResults.
Variable hash : string -> Z.

(** [f"doc_{i}_{hash(text)}"] *)
Definition doc_id (i : nat) (text : string) : string :=
  "doc_" +:+ str_of_int (Z.of_nat i) +:+ "_" +:+ str_of_int (hash text).

(** [add_documents]: the number returned and the [upsert] calls made, in
    order. *)
Definition add_documents (documents : list Document) : Z * list Upsert :=
  if negb (truthy_list documents) then (0, [])
  else
    let texts := map page_content documents in
    let metadatas := map doc_metadata documents in
    let ids := enumerate_from doc_id 0 texts in
    let embeddings := encode texts in
    let upserts :=
      map (fun start =>
             let stop := (start + BATCH_SIZE)%nat in
             {| ids := slice ids start stop;
                up_documents := slice texts start stop;
                up_embeddings := slice embeddings start stop;
                up_metadatas := slice metadatas start stop |})
          (range_step (length texts) BATCH_SIZE) in
    (Z.of_nat (length texts), upserts).

(** [search]; [None] stands for the [IndexError] of [results[...][0]] on an
    empty outer list. *)
Definition search (query : string) (top_k : option Z) : option (list Chunk) :=
  let top_k := int_or top_k (retrieval_top_k settings) in
  let query_embedding := encode [query] in
  let results := collection_query query_embedding top_k in
  match documents results with
  | first :: _ =>
      if truthy_list first then
        match metadatas results, distances results with
        | metas :: _, dists :: _ => Some (zip3 first metas dists)
        | _, _ => None
        end
      else Some []
  | [] => Some []
  end.

End Store.

End VectorStore.

(** ** api_server.py *)

Module ApiServer.
Import Text Guardrails RagPipeline.

(** What a handler needs of a [RAGPipeline]: the search and the count of
    its vector store. *)
Record Pipeline := {
  vs_search : string -> list Chunk;
  vs_count : Z
}.

Record QueryRequest := {
  question : string;
  company_terms : option (list string)
}.

Inductive Request :=
| PostQuery (request : QueryRequest)
| GetStats
| GetHealth.

(** What a handler does: it returns a body, raises an [HTTPException], or
    lets an exception of the pipeline through. *)
Inductive Reply :=
| QueryResponse (body : QueryResult)
| StatsResponse (document_count : Z) (collection_name : string)
| HealthResponse (status : string)
| HTTPException (status : Z) (detail : string)
| Uncaught (e : Exception).

(** The module state: the global [_pipeline], the number of [RAGPipeline()]
    constructions so far, and the trace of the pipeline's calls. *)
Record Server := {
  _pipeline : option Pipeline;
  constructions : nat;
  calls : list Event
}.

Definition startup : Server :=
  {| _pipeline := None; constructions := 0; calls := [] |}.

Section Handlers.

(** [config.settings] with its [chroma_collection_name], [requests.post],
    and the pipeline that [RAGPipeline()] constructs. *)
Variable settings : Settings.
Variable chroma_collection_name : string.
Variable requests_post : string -> Payload -> Z -> PostOutcome.
Variable new_pipeline : Pipeline.

Definition get_pipeline (st : Server) : Pipeline * Server :=
  match _pipeline st with
  | None =>
      (new_pipeline,
       {| _pipeline := Some new_pipeline;
          constructions := S (constructions st);
          calls := calls st |})
  | Some pipeline => (pipeline, st)
  end.

Definition with_calls (st : Server) (tr : list Event) : Server :=
  {| _pipeline := _pipeline st; constructions := constructions st; calls := tr |}.

(** [POST /query] *)
Definition query (request : QueryRequest) (st : Server) : Reply * Server :=
  let (pipeline, st) := get_pipeline st in
  match RagPipeline.query settings (vs_search pipeline) requests_post
                          (question request) (company_terms request) (calls st) with
  | (Returned result, tr) => (QueryResponse result, with_calls st tr)
  | (Raised (ConnectionError msg), tr) => (HTTPException 503 msg, with_calls st tr)
  | (Raised e, tr) => (Uncaught e, with_calls st tr)
  end.





End Handlers.

End ApiServer.

(** ** query_cli.py *)

Module QueryCli.
Import Text Guardrails RagPipeline.

(** The terminal: what was written to standard output, and the trace of the
    pipeline's calls. *)
Record Console := {
  stdout : string;
  events : list Event
}.

(** What [input] gives: a line, or one of the two exceptions the loop
    catches. An exhausted input is an end of file. *)
Inductive Input :=
| Line (s : string)
| EOFError
| KeyboardInterrupt.

Definition write (s : string) (c : Console) : Console :=
  {| stdout := stdout c +:+ s; events := events c |}.

(** [print(s)] *)
Definition print (s : string) (c : Console) : Console := write (s +:+ nl) c.

Definition with_events (c : Console) (tr : list Event) : Console :=
  {| stdout := stdout c; events := tr |}.

Definition print_result (result : QueryResult) (c : Console) : Console :=
  let c := print "" c in
  let c := print (answer result) c in
  let c := if truthy_list (sources result)
           then print ("Sources: " +:+ join ", " (sources result)) (print "" c)
           else c in
  let c := if was_filtered result
           then print "(Question was outside office scope)" c
           else c in
  print "" c.

(** [question.lower() in ("quit", "exit", "q")] *)
Definition is_quit (question : string) : bool :=
  existsb (String.eqb (lower question)) ["quit"; "exit"; "q"].

Section Cli.

(** [config.settings], the store of the pipeline with its count, and
    [requests.post]. *)
Variable settings : Settings.
Variable search : string -> list Chunk.
Variable count : Z.
Variable requests_post : string -> Payload -> Z -> PostOutcome.

(** The [while True] loop of [interactive_mode], one input per turn. *)
Fixpoint interactive_loop (inputs : list Input) (c : Console) : Console :=
  let c := write "You: " c in
  match inputs with
  | Line raw :: rest =>
      let question := strip raw in
      if negb (truthy_str question) then interactive_loop rest c
      else if is_quit question then print "Goodbye!" c
      else
        match query settings search requests_post question None (events c) with
        | (Returned result, tr) =>
            interactive_loop rest (print_result result (with_events c tr))
        | (Raised (ConnectionError msg), tr) =>
            interactive_loop rest
              (print (nl +:+ "Error: " +:+ msg +:+ nl) (with_events c tr))
        | (Raised (RuntimeError msg), tr) =>
            interactive_loop rest
              (print (nl +:+ "Unexpected error: " +:+ msg +:+ nl) (with_events c tr))
        end
  | _ => print (nl +:+ "Goodbye!") c
  end.

Definition interactive_mode (inputs : list Input) (c : Console) : Console :=
  let c := print "Office Information Assistant" c in
  let c := print ("Type 'quit' or 'exit' to stop." +:+ nl) c in
  interactive_loop inputs c.

(** [main]; [args] is [sys.argv[1:]]. With arguments the question is asked
    once, outside any [try]. *)
Definition main (args : list string) (inputs : list Input) (c : Console)
  : Outcome unit * Console :=
  let c := print ("Vector store contains " +:+ str_of_int count +:+
                  " document chunks." +:+ nl) c in
  if truthy_list args then
    let question := join " " args in
    match query settings search requests_post question None (events c) with
    | (Returned result, tr) => (Returned tt, print_result result (with_events c tr))
    | (Raised e, tr) => (Raised e, with_events c tr)
    end
  else (Returned tt, interactive_mode inputs c).

End Cli.

End QueryCli.

(** ** ingest.py *)

Module Ingest.
Import Text RagPipeline VectorStore.

(** The fields of [config.settings] that [ingest.py] reads. *)
Record IngestSettings := {
  documents_dir : string;
  chunk_size : Z;
  chunk_overlap : Z
}.

(** What [main] does to the world, in order. *)
Inductive Action :=
| Printed (line : string)
| LoadedAndChunked (dir : string) (size overlap : Z)
| StoreOpened
| StoreReset
| StoreAdded (chunks : list Document)
| StoreCounted.

(** The [for arg in args] loop: the directory and the reset flag it leaves. *)
Definition parse_args (docs_dir : string) (args : list string) : string * bool :=
  fold_left
    (fun '(docs_dir, reset) arg =>
       if String.eqb arg "--reset" then (docs_dir, true)
       else if negb (starts_with "-" arg) then (arg, reset)
       else (docs_dir, reset))
    args (docs_dir, false).

Section Main.

(** The settings; [Path.exists], [Path.resolve] and [str(Path(...))] on a
    path; the loader; and the store's [add_documents] and [count]. *)
Variable settings : IngestSettings.
Variable path_exists : string -> bool.
Variable path_resolve : string -> string.
Variable path_str : string -> string.
Variable load_and_chunk_documents : string -> Z -> Z -> list Document.
Variable store_add_documents : list Document -> Z.
Variable store_count : Z.

(** [main]: the exit status of [sys.exit], if any, and the actions taken. *)
Definition main (args : list string) : option Z * list Action :=
  let '(docs_dir, reset) := parse_args (documents_dir settings) args in
  if negb (path_exists docs_dir) then
    (Some 1, [Printed ("Error: Documents directory not found: " +:+ docs_dir)])
  else
    let intro :=
      [ Printed ("Documents directory: " +:+ path_resolve docs_dir);
        Printed ("Chunk size: " +:+ str_of_int (chunk_size settings) +:+
                 ", Overlap: " +:+ str_of_int (chunk_overlap settings));
        Printed "";
        Printed "Loading and chunking documents...";
        LoadedAndChunked (path_str docs_dir) (chunk_size settings)
                         (chunk_overlap settings) ] in
    let chunks := load_and_chunk_documents (path_str docs_dir) (chunk_size settings)
                                           (chunk_overlap settings) in
    if negb (truthy_list chunks) then
      (Some 1,
       intro ++
       [ Printed "No documents found or all documents were empty.";
         Printed ("Place PDF, DOCX, or TXT files in: " +:+ path_resolve docs_dir) ])
    else
      let opened :=
        [ Printed (nl +:+ "Total chunks created: " +:+
                   str_of_int (Z.of_nat (length chunks)));
          Printed (nl +:+ "Initializing vector store...");
          StoreOpened ] in
      let resetting :=
        if reset then [Printed "Resetting existing collection..."; StoreReset]
        else [] in
      let count := store_add_documents chunks in
      (None,
       intro ++ opened ++ resetting ++
       [ Printed "Embedding and storing chunks (this may take a moment)...";
         StoreAdded chunks;
         Printed (nl +:+ "Done! " +:+ str_of_int count +:+ " chunks stored in ChromaDB.");
         StoreCounted;
         Printed ("Total documents in store: " +:+ str_of_int store_count) ]).

End Main.

End Ingest.

(** ** Notions for the guardrail pattern and the validator *)

Module Phrases.
Import Text Guardrails.

(** Every character of [s] is whitespace. *)
Fixpoint all_space (s : string) : bool :=
  match s with
  | EmptyString => true
  | String c s' => is_space c && all_space s'
  end.

(** What the fallback pattern of [is_office_related] describes: a determiner,
    a non-empty run of whitespace and an office noun, the whole not preceded
    and not followed by a word character. *)
Definition office_noun_phrase (s : string) : Prop :=
  exists pre det gap noun post,
    s = pre +:+ det +:+ gap +:+ noun +:+ post /\
    det ∈ DETERMINERS /\ noun ∈ OFFICE_NOUNS /\
    gap <> EmptyString /\ all_space gap = true /\
    word_at (last_char pre) = false /\ word_at (first_char post) = false.

(** Some hallucination marker occurs in the lower-cased text. *)
Definition has_marker (s : string) : bool :=
  existsb (fun marker => contains marker (lower s)) hallucination_markers.

(** Some blocked topic occurs in the lower-cased text. *)
Definition has_blocked_topic (s : string) : bool :=
  existsb (fun blocked => contains blocked (lower s)) BLOCKED_TOPICS.

End Phrases.

(** ** Notions for the HTTP server *)

Module ServerNotions.
Import ApiServer.


End ServerNotions.

(** ** Notions for the command-line tools *)

Module CliNotions.
Import Text QueryCli Ingest.

(** A line that is empty once stripped. *)
Definition is_blank (input : Input) : bool :=
  match input with
  | Line raw => negb (truthy_str (strip raw))
  | _ => false
  end.

(** An input that ends the interactive loop: an end of file, an interrupt,
    or one of the quit words. *)
Definition is_stop (input : Input) : bool :=
  match input with
  | Line raw => is_quit (strip raw)
  | _ => true
  end.

(** An argument that [ingest.py] takes as the documents directory. *)
Definition is_dir_arg (arg : string) : bool := negb (starts_with "-" arg).

(** The actions of [ingest.py] on the vector store. *)
Definition is_store_action (a : Action) : bool :=
  match a with
  | StoreOpened | StoreReset | StoreAdded _ | StoreCounted => true
  | Printed _ | LoadedAndChunked _ _ _ => false
  end.

End CliNotions.

(** ** Further settings and collaborators for the scenarios *)

Module MoreScenarios.
Import Text Guardrails RagPipeline Notions Scenarios.

Local Open Scope Z_scope.

(** The default settings with a context budget of twenty characters. *)
Definition tight_settings : Settings := {|
  ollama_base_url := ollama_base_url default_settings;
  ollama_model := ollama_model default_settings;
  ollama_timeout := ollama_timeout default_settings;
  retrieval_top_k := retrieval_top_k default_settings;
  relevance_score_threshold := relevance_score_threshold default_settings;
  max_context_tokens := 5;
  temperature := temperature default_settings
|}.

(** The store of the scenarios with two more chunks beyond the cut-off. *)
Definition store_abc_far (query : string) : list Chunk :=
  chunk_of "c.pdf" "The cafeteria serves lunch." 0x1.ccccccccccccdp-1%float
  :: store_abc query
  ++ [chunk_of "d.pdf" "Visitors sign in." 1%float].

(** An embedder and two collections: one answering with two documents, one
    with none. *)
Definition embed_zero (texts : list string) : list VectorStore.Embedding :=
  map (fun _ => [0%float]) texts.

Definition collection_two (_ : list VectorStore.Embedding) (_ : Z)
  : VectorStore.QueryResults :=
  {| VectorStore.documents := [["Badges are issued at reception."; "Parking opens at seven."]];
     VectorStore.metadatas := [[ {[ "filename" := "badges.txt" ]};
                                 {[ "filename" := "parking.pdf" ]} ]];
     VectorStore.distances := [[ 0x1.999999999999ap-3%float;
                                 0x1.3333333333333p-2%float ]] |}.

Definition collection_empty (_ : list VectorStore.Embedding) (_ : Z)
  : VectorStore.QueryResults :=
  {| VectorStore.documents := [[]];
     VectorStore.metadatas := [];
     VectorStore.distances := [] |}.

(** The pipeline over the store of the scenarios. *)
Definition pipeline_abc : ApiServer.Pipeline :=
  {| ApiServer.vs_search := store_abc; ApiServer.vs_count := 3 |}.

Definition ask (question : string) : ApiServer.Request :=
  ApiServer.PostQuery {| ApiServer.question := question;
                         ApiServer.company_terms := None |}.

(** A 200 reply whose body is the empty object. *)
Definition empty_body : Response :=
  {| status_code := 200; resp_text := "{}"; json := ∅ |}.

End MoreScenarios.

(** ** rag_pipeline.py with the exceptions it lets through *)

(** [RagPipeline] above follows a query whose collaborators behave: the
    store answers, and the endpoint refuses the connection or responds with
    a body of the expected shape. [call_ollama] catches
    [requests.ConnectionError] only and [query] catches nothing, so this
    module follows the same two functions with every outcome of the calls
    they make: an exception of the search, any exception of
    [requests.post], a body that [resp.json()] cannot decode, and a decoded
    value without the methods [get] and [strip]. *)

Module Unhandled.
Import Text Guardrails RagPipeline.

(** A decoded JSON value. *)
#[warnings="-register-all"]
Inductive Json :=
| JNull
| JBool (b : bool)
| JNumber (n : Z)
| JString (s : string)
| JArray (items : list Json)
| JObject (members : gmap string Json).

(** An exception on its way out of a call: one of the two that
    [call_ollama] raises itself, or any other, by the name of its class. *)
Inductive Error :=
| Own (e : Exception)
| Other (class_name : string).

Inductive Result (A : Type) :=
| Done (a : A)
| Failed (e : Error).
Arguments Done {A} a.
Arguments Failed {A} e.

(** An HTTP response; [http_json] is what [resp.json()] does. *)
Record HttpResponse := {
  http_status : Z;
  http_text : string;
  http_json : Result Json
}.

(** What [requests.post] does: it raises [requests.ConnectionError] (or a
    subclass of it), raises anything else, or returns a response. *)
Inductive PostResult :=
| PostConnectionError
| PostRaised (e : Error)
| PostReturned (resp : HttpResponse).

Definition IO (A : Type) : Type := list Event -> Result A * list Event.

Definition ret {A} (a : A) : IO A := fun tr => (Done a, tr).

Definition fail {A} (e : Error) : IO A := fun tr => (Failed e, tr).

(** The outcome of a call that leaves no trace of its own. *)
Definition lift {A} (r : Result A) : IO A := fun tr => (r, tr).

Definition bind {A B} (m : IO A) (k : A -> IO B) : IO B :=
  fun tr =>
    match m tr with
    | (Done a, tr') => k a tr'
    | (Failed e, tr') => (Failed e, tr')
    end.

Definition emit (ev : Event) : IO unit := fun tr => (Done tt, tr ++ [ev]).

Notation "'let!' x := m 'in' k" := (bind m (fun x => k))
  (at level 10, x name, m at level 100, k at level 200).

(** [v.get(key, default)]: only a dict has [get]. *)
Definition py_get (v : Json) (key : string) (dflt : Json) : Result Json :=
  match v with
  | JObject members => Done (default dflt (members !! key))
  | _ => Failed (Other "AttributeError")
  end.

(** [v.strip()]: only a str has [strip]. *)
Definition py_strip (v : Json) : Result string :=
  match v with
  | JString s => Done (strip s)
  | _ => Failed (Other "AttributeError")
  end.

Section Collaborators.

(** [config.settings], the vector store's [search] and [requests.post]. *)
Variable settings : Settings.
Variable search : string -> Result (list Chunk).
Variable requests_post : string -> Payload -> Z -> PostResult.

Definition call_ollama (messages : list Message) : IO string :=
  let url := ollama_base_url settings +:+ "/api/chat" in
  let payload := {| model := ollama_model settings;
                    messages := messages;
                    stream := false;
                    options_temperature := temperature settings |} in
  let! _ := emit (Posted url payload (ollama_timeout settings)) in
  match requests_post url payload (ollama_timeout settings) with
  | PostConnectionError =>
      fail (Own (ConnectionError
                   ("Cannot connect to Ollama at " +:+ ollama_base_url settings +:+ ". " +:+
                    "Make sure Ollama is running (ollama serve).")))
  | PostRaised e => fail e
  | PostReturned resp =>
      if negb (http_status resp =? 200) then
        fail (Own (RuntimeError
                     ("Ollama returned status " +:+ str_of_int (http_status resp) +:+
                      ": " +:+ http_text resp)))
      else
        let! data := lift (http_json resp) in
        let! message := lift (py_get data "message" (JObject ∅)) in
        let! content := lift (py_get message "content" (JString "")) in
        lift (py_strip content)
  end.

Definition vector_store_search (query : string) : IO (list Chunk) :=
  let! _ := emit (Searched query) in
  lift (search query).

Definition query (question : string) (company_terms : option (list string))
  : IO QueryResult :=
  (* Step 1: guardrail check *)
  let refusal := format_guardrail_refusal question in
  let retrieve_and_generate : IO QueryResult :=
    (* Step 2: retrieve and filter *)
    let enhanced_query := "office information: " +:+ question in
    let! chunks := vector_store_search enhanced_query in
    let filtered_chunks := filter_chunks settings chunks in
    if negb (truthy_list filtered_chunks) then
      ret {| answer := REFUSAL_NO_CONTEXT; sources := []; was_filtered := false |}
    else
      (* Step 3: context and prompt *)
      let context := build_context settings filtered_chunks None in
      let messages := build_prompt context question in
      (* Step 4: generate *)
      let! raw_response := call_ollama messages in
      (* Step 5: validate, then collect the sources *)
      let final_response := validate_response raw_response filtered_chunks in
      let sources := map source_of filtered_chunks in
      let unique_sources := dedup_loop sources ∅ [] in
      ret {| answer := final_response;
             sources := unique_sources;
             was_filtered := false |} in
  match refusal with
  | Some r =>
      if truthy_str r then
        ret {| answer := r; sources := []; was_filtered := true |}
      else retrieve_and_generate
  | None => retrieve_and_generate
  end.

End Collaborators.

End Unhandled.

(** ** Notions for the propagation of failures *)

Module UnhandledNotions.
Import Text Guardrails RagPipeline Notions Scenarios Unhandled.

(** The text that [call_ollama] reads out of a 200 response. *)
Definition reply_text (resp : HttpResponse) : Result string :=
  match http_json resp with
  | Done data =>
      match py_get data "message" (JObject ∅) with
      | Done message =>
          match py_get message "content" (JString "") with
          | Done content => py_strip content
          | Failed e => Failed e
          end
      | Failed e => Failed e
      end
  | Failed e => Failed e
  end.

(** What [requests.post] does with the request built from the filtered
    chunks. *)
Definition chat_request (settings : Settings)
           (requests_post : string -> Payload -> Z -> PostResult)
           (question : string) (filtered : list Chunk) : PostResult :=
  requests_post (chat_url settings) (chat_payload settings question filtered)
                (ollama_timeout settings).

Definition request_event (settings : Settings) (question : string)
           (filtered : list Chunk) : Event :=
  Posted (chat_url settings) (chat_payload settings question filtered)
         (ollama_timeout settings).

(** Collaborators that behave, seen as collaborators that may fail: the
    search always answers, the body always decodes to an object of objects
    of strings. *)
Definition returned {A} (o : Outcome A) : Result A :=
  match o with
  | Returned a => Done a
  | Raised e => Failed (Own e)
  end.

Definition answering (search : string -> list Chunk) (query : string)
  : Result (list Chunk) := Done (search query).

Definition decoded (data : gmap string (gmap string string)) : Json :=
  JObject ((fun message => JObject (JString <$> message)) <$> data).

Definition well_behaved (requests_post : string -> Payload -> Z -> PostOutcome)
           (url : string) (payload : Payload) (timeout : Z) : PostResult :=
  match requests_post url payload timeout with
  | ConnectionFailed => PostConnectionError
  | Responded resp =>
      PostReturned {| http_status := status_code resp;
                      http_text := resp_text resp;
                      http_json := Done (decoded (json resp)) |}
  end.

(** The [RuntimeError] of [call_ollama] for a response, and the result of
    [query] in the Done state for a reply text. *)
Definition status_error (resp : HttpResponse) : Exception :=
  RuntimeError ("Ollama returned status " +:+ str_of_int (http_status resp) +:+
                ": " +:+ http_text resp).

Definition answered (filtered : list Chunk) (text : string) : QueryResult :=
  {| answer := validate_response text filtered;
     sources := dedup_loop (map source_of filtered) ∅ [];
     was_filtered := false |}.

(** An endpoint that accepts the connection and then sends nothing until
    the timeout of the request expires. *)
Definition times_out (_ : string) (_ : Payload) (_ : Z) : PostResult :=
  PostRaised (Other "requests.exceptions.ReadTimeout").

(** An endpoint answering 200 with the body [{"message": null}]. *)
Definition null_message (_ : string) (_ : Payload) (_ : Z) : PostResult :=
  PostReturned {| http_status := 200;
                  http_text := "{" +:+ dq +:+ "message" +:+ dq +:+ ": null}";
                  http_json := Done (JObject {[ "message" := JNull ]}) |}.

(** A store whose collection answers with documents and no metadata. *)
Definition store_broken (_ : string) : Result (list Chunk) :=
  Failed (Other "IndexError").

End UnhandledNotions.

(** * Properties *)

(** ** Substrings *)

Module TextFacts.
Import Text Notions.

Lemma starts_with_spec (p s : string) :
  starts_with p s = true <-> exists q, s = p +:+ q.
Proof.
  revert s. induction p as [|a p IH]; intros s; simpl.
  - split; [intros _; by exists s | done].
  - destruct s as [|b s].
    + split; [done | intros [q Hq]; discriminate].
    + rewrite andb_true_iff, Ascii.eqb_eq, IH. split.
      * intros [-> [q ->]]. by exists q.
      * intros [q Hq]. injection Hq as -> ->. split; [done | by exists q].
Qed.

Lemma contains_spec (needle hay : string) :
  contains needle hay = true <-> substring needle hay.
Proof.
  unfold substring. induction hay as [|c hay IH].
  - cbn [contains]. rewrite orb_false_r, starts_with_spec. split.
    + intros [q Hq]. by exists EmptyString, q.
    + intros [pre [post H]]. destruct pre; [|discriminate].
      by exists post.
  - cbn [contains]. rewrite orb_true_iff, starts_with_spec, IH. split.
    + intros [[q Hq] | [pre [post H]]].
      * by exists EmptyString, q.
      * exists (String c pre), post. simpl. by rewrite H.
    + intros [pre [post H]]. destruct pre as [|a pre].
      * left. by exists post.
      * right. simpl in H. injection H as _ H. by exists pre, post.
  Qed.

Lemma contains_false (needle hay : string) :
  contains needle hay = false <-> ~ substring needle hay.
Proof. rewrite <- contains_spec. by destruct (contains needle hay). Qed.

Lemma existsb_elem_of {A} (f : A -> bool) (l : list A) :
  existsb f l = true <-> exists x, x ∈ l /\ f x = true.
Proof.
  rewrite existsb_exists. split; intros [x [H1 H2]]; exists x;
    (split; [by apply list_elem_of_In | done]).
Qed.

Lemma existsb_none {A} (f : A -> bool) (l : list A) :
  existsb f l = false <-> forall x, x ∈ l -> f x = false.
Proof.
  split.
  - intros H x Hx. destruct (f x) eqn:E; [|done].
    rewrite <- H. symmetry. apply existsb_elem_of. eauto.
  - intros H. destruct (existsb f l) eqn:E; [|done].
    apply existsb_elem_of in E as [x [Hx Hf]]. rewrite (H x Hx) in Hf. done.
Qed.

Lemma append_nil_l (t : string) : EmptyString +:+ t = t.
Proof. reflexivity. Qed.

Lemma append_cons (a : ascii) (s t : string) :
  String a s +:+ t = String a (s +:+ t).
Proof. reflexivity. Qed.

Lemma length_append (s t : string) :
  String.length (s +:+ t) = (String.length s + String.length t)%nat.
Proof.
  induction s as [|a s IH]; rewrite ?append_nil_l, ?append_cons; simpl;
    [done | by rewrite IH].
Qed.

Lemma len_append (s t : string) : len (s +:+ t) = len s + len t.
Proof. unfold len. rewrite length_append. lia. Qed.

Lemma len_nonneg (s : string) : 0 <= len s.
Proof. unfold len. lia. Qed.

Lemma append_assoc (s t u : string) : (s +:+ t) +:+ u = s +:+ t +:+ u.
Proof.
  induction s as [|a s IH]; rewrite ?append_nil_l, ?append_cons; simpl;
    [done | by rewrite IH].
Qed.

Lemma append_empty_r (s : string) : s +:+ EmptyString = s.
Proof.
  induction s as [|a s IH]; rewrite ?append_nil_l, ?append_cons; simpl;
    [done | by rewrite IH].
Qed.

End TextFacts.

(** ** The guardrail and the validator *)

Module GuardrailFacts.
Import Text Guardrails Notions TextFacts.

(** C3. A question whose lower-casing contains a phrase of the blocked-topic
    list is classified out of scope by [is_office_related], whatever domain
    keyword, company term or fallback match it also has. *)
Theorem blocklist_precedence
  (question : string) (company_terms : option (list string)) (blocked : string) :
  blocked ∈ BLOCKED_TOPICS ->
  substring blocked (lower question) ->
  is_office_related question company_terms = false.
Proof.
  intros Hin Hsub. unfold is_office_related.
  replace (existsb _ BLOCKED_TOPICS) with true; [done|].
  symmetry. apply existsb_elem_of. exists blocked. split; [done|].
  by apply contains_spec.
Qed.

(** The blocked phrase wins over the keywords "policy" and "office", a
    matching company term and the fallback "our office". *)
Lemma blocklist_precedence_witness :
  "bitcoin" ∈ BLOCKED_TOPICS /\
  substring "bitcoin" (lower "What is the Bitcoin policy for our office?") /\
  is_office_related "What is the Bitcoin policy for our office?"
                    (Some ["Bitcoin"]) = false.
Proof.
  assert (Hin : "bitcoin" ∈ BLOCKED_TOPICS) by (unfold BLOCKED_TOPICS; repeat constructor).
  assert (Hsub : substring "bitcoin" (lower "What is the Bitcoin policy for our office?")).
  { exists "what is the ", " policy for our office?". reflexivity. }
  split; [exact Hin|]. split; [exact Hsub|].
  exact (blocklist_precedence _ _ _ Hin Hsub).
Defined.

Lemma validate_response_refuses {C} (response : string) (chunks : list C) :
  chunks = [] \/
  (exists marker, marker ∈ hallucination_markers /\
                  substring marker (lower response)) ->
  validate_response response chunks = REFUSAL_NO_CONTEXT.
Proof.
  unfold validate_response. intros [-> | [marker [Hin Hsub]]]; [done|].
  destruct chunks; [done|]. cbn [truthy_list negb].
  replace (existsb _ hallucination_markers) with true; [done|].
  symmetry. apply existsb_elem_of. exists marker.
  by rewrite contains_spec.
Qed.

Lemma validate_response_keeps {C} (response : string) (chunks : list C) :
  chunks <> [] ->
  (forall marker, marker ∈ hallucination_markers ->
                  ~ substring marker (lower response)) ->
  validate_response response chunks = response.
Proof.
  unfold validate_response. intros Hne Hno.
  destruct chunks; [done|]. cbn [truthy_list negb].
  replace (existsb _ hallucination_markers) with false; [done|].
  symmetry. apply existsb_none. intros m Hm. by apply contains_false, Hno.
Qed.

Lemma validate_response_either {C} (response : string) (chunks : list C) :
  validate_response response chunks = response \/
  validate_response response chunks = REFUSAL_NO_CONTEXT.
Proof.
  unfold validate_response. destruct chunks; cbn [truthy_list negb]; [by right|].
  destruct (existsb _ hallucination_markers); [by right | by left].
Qed.

(** C7. [validate_response] returns the fixed no-context refusal when the
    chunk list is empty or the lower-cased response contains one of the
    hallucination markers, returns the response unchanged otherwise, and so
    always returns one of the two. *)
Theorem validate_response_cases {C} (response : string) (chunks : list C) :
  (chunks = [] \/
   (exists marker, marker ∈ hallucination_markers /\
                   substring marker (lower response)) ->
   validate_response response chunks = REFUSAL_NO_CONTEXT) /\
  (chunks <> [] /\
   (forall marker, marker ∈ hallucination_markers ->
                   ~ substring marker (lower response)) ->
   validate_response response chunks = response) /\
  (validate_response response chunks = response \/
   validate_response response chunks = REFUSAL_NO_CONTEXT).
Proof.
  split; [apply validate_response_refuses|].
  split; [|apply validate_response_either].
  intros [Hne Hno]. by apply validate_response_keeps.
Qed.

(** Scenario D of the specification. *)
Example validate_response_marker :
  validate_response "As an AI, I don't have access to real-time data" [tt]
  = REFUSAL_NO_CONTEXT.
Proof. reflexivity. Qed.

Lemma refusal_has_no_marker :
  existsb (fun marker => contains marker (lower REFUSAL_NO_CONTEXT))
          hallucination_markers = false.
Proof. vm_compute. reflexivity. Qed.

Lemma validate_refusal {C} (chunks : list C) :
  validate_response REFUSAL_NO_CONTEXT chunks = REFUSAL_NO_CONTEXT.
Proof.
  unfold validate_response. destruct chunks; [done|].
  cbn [truthy_list negb]. by rewrite refusal_has_no_marker.
Qed.

(** C9. [validate_response] is idempotent: validating an already validated
    text against the same chunks returns it unchanged; in particular the
    substituted refusal is returned as it is. *)
Theorem validate_response_idempotent {C} (response : string) (chunks : list C) :
  validate_response (validate_response response chunks) chunks
  = validate_response response chunks /\
  validate_response REFUSAL_NO_CONTEXT chunks = REFUSAL_NO_CONTEXT.
Proof.
  split; [|apply validate_refusal].
  destruct (validate_response_either response chunks) as [H | H].
  - rewrite H at 1. done.
  - rewrite H. apply validate_refusal.
Qed.

End GuardrailFacts.

(** ** Context assembly and the relevance filter *)

Module ContextFacts.
Import Text Guardrails RagPipeline Notions Scenarios TextFacts.

Lemma total_len_app (l k : list string) :
  total_len (l ++ k) = total_len l + total_len k.
Proof. induction l as [|p l IH]; simpl; [done | rewrite IH; lia]. Qed.

Lemma total_len_nonneg (l : list string) : 0 <= total_len l.
Proof.
  induction l as [|p l IH]; simpl; [done | pose proof (len_nonneg p); lia].
Qed.

Lemma join_cons (sep p : string) (l : list string) :
  l <> [] -> join sep (p :: l) = p +:+ sep +:+ join sep l.
Proof. by destruct l. Qed.

(** Length of a joined list: the parts and one separator between each two. *)
Lemma len_join (sep : string) (l : list string) :
  len (join sep l) = total_len l + len sep * Z.of_nat (length l - 1).
Proof.
  induction l as [|p l IH]; [unfold len; simpl; lia|].
  destruct l as [|q l].
  - simpl. lia.
  - rewrite join_cons by done. rewrite !len_append, IH.
    replace (Z.of_nat (length (p :: q :: l) - 1))
      with (1 + Z.of_nat (length (q :: l) - 1)) by (simpl; lia).
    cbn [total_len fold_right]. lia.
Qed.

(** Every part of a joined list occurs in it, whole. *)
Lemma join_substring (sep e : string) (l : list string) :
  e ∈ l -> substring e (join sep l).
Proof.
  induction l as [|p l IH]; intros Hin; [by apply elem_of_nil in Hin|].
  destruct l as [|q l].
  - apply list_elem_of_singleton in Hin as ->.
    exists EmptyString, EmptyString. simpl. by rewrite append_empty_r.
  - rewrite join_cons by done. apply elem_of_cons in Hin as [-> | Hin].
    + by exists EmptyString, (sep +:+ join sep (q :: l)).
    + destruct (IH Hin) as [pre [post H]]. rewrite H.
      exists (p +:+ sep +:+ pre), post. by rewrite !append_assoc.
Qed.

(** The loop only ever appends to the parts it starts from. *)
Lemma build_context_loop_app (budget : Z) (chunks : list Chunk)
      (parts : list string) (total : Z) :
  build_context_loop budget chunks parts total
  = parts ++ build_context_loop budget chunks [] total.
Proof.
  revert parts total. induction chunks as [|c chunks IH]; intros parts total.
  - simpl. by rewrite app_nil_r.
  - simpl. destruct (total + len (entry_of c) >? budget).
    + by rewrite app_nil_r.
    + rewrite (IH (parts ++ _)), (IH [_]). by rewrite <- app_assoc.
Qed.

(** What the loop accepts, started with [total] characters in hand: a prefix
    of the entries that fits, and the entry after it does not fit. *)
Lemma build_context_loop_spec (budget : Z) (chunks : list Chunk) (total : Z) :
  exists rest,
    map entry_of chunks = build_context_loop budget chunks [] total ++ rest /\
    (build_context_loop budget chunks [] total <> [] ->
     total + total_len (build_context_loop budget chunks [] total) <= budget) /\
    (forall e rest', rest = e :: rest' ->
     total + total_len (build_context_loop budget chunks [] total) + len e > budget).
Proof.
  revert total. induction chunks as [|c chunks IH]; intros total.
  - exists []. simpl. repeat split; done.
  - simpl. destruct (total + len (entry_of c) >? budget) eqn:E.
    + exists (entry_of c :: map entry_of chunks). repeat split; [done|].
      intros e rest' [= <- <-]. simpl. lia.
    + rewrite build_context_loop_app.
      destruct (IH (total + len (entry_of c))) as (rest & Hpre & Hfit & Hnext).
      set (acc := build_context_loop budget chunks [] (total + len (entry_of c))) in *.
      exists rest. repeat split.
      * simpl. by rewrite Hpre.
      * intros _. rewrite total_len_app. cbn [total_len fold_right].
        destruct (decide (acc = [])) as [Hnil | Hne].
        -- rewrite Hnil. simpl. lia.
        -- specialize (Hfit Hne). lia.
      * intros e rest' ->. specialize (Hnext e rest' eq_refl).
        rewrite total_len_app. cbn [total_len fold_right]. lia.
Qed.

(** C2, as stated, fails: the budget test counts the entries only, so two
    entries of twenty characters pass a budget of forty and the joined
    string, separator included, has forty-seven. *)
Lemma build_context_exceeds_budget :
  ~ (len (build_context default_settings two_chunks (Some 10)) <= 10 * 4).
Proof. vm_compute. intros H. apply H. reflexivity. Qed.

(** C2, amended. [build_context] returns a prefix of the chunk entries, each
    in full, joined by the separator; when any entry is accepted their
    combined length, separators not counted, is at most the budget
    [max_tokens * 4]; the first entry left out is one that would overflow
    it; and the returned string is longer than the accepted entries by
    seven characters for each separator. *)
Theorem build_context_budget
  (settings : Settings) (chunks : list Chunk) (max_tokens : option Z) :
  let budget := int_or max_tokens (max_context_tokens settings) * 4 in
  let context := build_context settings chunks max_tokens in
  exists accepted rest,
    map entry_of chunks = accepted ++ rest /\
    context = join SEPARATOR accepted /\
    (accepted <> [] -> total_len accepted <= budget) /\
    (forall e rest', rest = e :: rest' -> total_len accepted + len e > budget) /\
    (forall e, e ∈ accepted -> substring e context) /\
    len context = total_len accepted + 7 * Z.of_nat (length accepted - 1).
Proof.
  intros budget context.
  destruct (build_context_loop_spec budget chunks 0) as (rest & Hpre & Hfit & Hnext).
  exists (build_context_loop budget chunks [] 0), rest.
  split; [done|]. split; [done|]. split; [|split; [|split]].
  - intros Hne. specialize (Hfit Hne). lia.
  - intros e rest' H. specialize (Hnext e rest' H). lia.
  - intros e He. by apply join_substring.
  - unfold context, build_context. fold budget. by rewrite len_join.
Qed.

(** The budget is met with equality by one entry, and a second one is then
    refused whole. *)
Example build_context_stops :
  build_context default_settings two_chunks (Some 5)
  = "[Source: a]" +:+ nl +:+ "12345678".
Proof. reflexivity. Qed.

(** *** The relevance filter *)

Lemma float_eqb_leb (x y : float) :
  (x =? y)%float = true -> (x <=? y)%float = true.
Proof.
  rewrite FloatAxioms.eqb_spec, FloatAxioms.leb_spec. unfold SFeqb, SFleb.
  by destruct (SFcompare _ _) as [[]|].
Qed.

Lemma filter_chunks_elem (settings : Settings) (chunks : list Chunk) (c : Chunk) :
  c ∈ filter_chunks settings chunks <-> c ∈ chunks /\ relevant settings c = true.
Proof.
  unfold filter_chunks. rewrite !list_elem_of_In. apply filter_In.
Qed.

(** C4. The relevance filter keeps exactly the chunks whose distance is at
    most [1 - relevance_score_threshold], in their original order, and a
    chunk whose distance equals the cut-off is kept. *)
Theorem relevance_filter_exact (settings : Settings) (chunks : list Chunk) :
  let cutoff := (1 - relevance_score_threshold settings)%float in
  filter_chunks settings chunks `sublist_of` chunks /\
  (forall c, c ∈ filter_chunks settings chunks <->
             c ∈ chunks /\ (distance c <=? cutoff)%float = true) /\
  (forall before c after, chunks = before ++ c :: after ->
     filter_chunks settings chunks
     = filter_chunks settings before
       ++ (if (distance c <=? cutoff)%float then [c] else [])
       ++ filter_chunks settings after) /\
  (forall c, c ∈ chunks -> (distance c =? cutoff)%float = true ->
             c ∈ filter_chunks settings chunks).
Proof.
  intros cutoff. split; [|split; [|split]].
  - unfold filter_chunks. induction chunks as [|c chunks IH]; simpl.
    + constructor.
    + destruct (relevant settings c); by constructor.
  - intros c. apply filter_chunks_elem.
  - intros before c after ->. unfold filter_chunks.
    rewrite List.filter_app. simpl. unfold relevant at 2. fold cutoff.
    by destruct (distance c <=? cutoff)%float.
  - intros c Hin Heq. apply filter_chunks_elem. split; [done|].
    by apply float_eqb_leb.
Qed.

(** With the default threshold 0.3 the cut-off is 0.7: distances 0.2 and
    0.7 are kept, 0.9 is dropped. *)
Example relevance_filter_default :
  map distance
      (filter_chunks default_settings
         [ {| text := "a"; metadata := ∅; distance := 0x1.ccccccccccccdp-1%float |};
           {| text := "b"; metadata := ∅; distance := 0x1.6666666666666p-1%float |};
           {| text := "c"; metadata := ∅; distance := 0x1.999999999999ap-3%float |} ])
  = [ 0x1.6666666666666p-1%float; 0x1.999999999999ap-3%float ].
Proof. reflexivity. Qed.

End ContextFacts.

(** ** Source de-duplication *)

Module SourcesFacts.
Import Text Guardrails RagPipeline Notions TextFacts.

Lemma dedup_loop_app (l : list string) (seen : gset string) (u : list string) :
  dedup_loop l seen u = u ++ dedup_loop l seen [].
Proof.
  revert seen u. induction l as [|s l IH]; intros seen u; simpl.
  - by rewrite app_nil_r.
  - destruct (decide (s ∈ seen)); [apply IH|].
    rewrite (IH _ (u ++ [s])), (IH _ [s]). by rewrite <- app_assoc.
Qed.

Lemma dedup_loop_cons (s : string) (l : list string) (seen : gset string) :
  dedup_loop (s :: l) seen []
  = if decide (s ∈ seen) then dedup_loop l seen []
    else s :: dedup_loop l ({[ s ]} ∪ seen) [].
Proof. simpl. destruct (decide (s ∈ seen)); [done|]. apply dedup_loop_app. Qed.

(** The loop emits the values of the list that are not yet in [seen]. *)
Lemma dedup_loop_elem (l : list string) (seen : gset string) (x : string) :
  x ∈ dedup_loop l seen [] <-> x ∈ l /\ x ∉ seen.
Proof.
  revert seen. induction l as [|s l IH]; intros seen.
  - simpl. rewrite elem_of_nil. tauto.
  - rewrite dedup_loop_cons, elem_of_cons.
    destruct (decide (s ∈ seen)) as [Hs | Hs].
    + rewrite IH. split; [tauto|]. intros [[-> | Hx] Hn]; [done | tauto].
    + rewrite elem_of_cons, IH, not_elem_of_union, not_elem_of_singleton.
      destruct (decide (x = s)) as [-> | Hne]; tauto.
Qed.

Lemma dedup_loop_NoDup (l : list string) (seen : gset string) :
  NoDup (dedup_loop l seen []).
Proof.
  revert seen. induction l as [|s l IH]; intros seen.
  - constructor.
  - rewrite dedup_loop_cons. destruct (decide (s ∈ seen)); [apply IH|].
    constructor; [|apply IH]. rewrite dedup_loop_elem, not_elem_of_union.
    intros (_ & Hself & _). by apply Hself, elem_of_singleton.
Qed.

Lemma first_index_elem (x : string) (l : list string) :
  x ∈ l -> exists a, first_index x l = Some a.
Proof.
  induction l as [|y l IH]; intros Hin; [by apply elem_of_nil in Hin|].
  simpl. destruct (decide (x = y)); [by exists 0%nat|].
  apply elem_of_cons in Hin as [-> | Hin]; [done|].
  destruct (IH Hin) as [a ->]. by exists (S a).
Qed.

(** Values come out in the order of their first occurrences. *)
Lemma dedup_loop_order (l : list string) (seen : gset string)
      (i j : nat) (x y : string) :
  (i < j)%nat ->
  dedup_loop l seen [] !! i = Some x ->
  dedup_loop l seen [] !! j = Some y ->
  exists a b, first_index x l = Some a /\ first_index y l = Some b /\ (a < b)%nat.
Proof.
  revert seen i j. induction l as [|s l IH]; intros seen i j Hij Hx Hy.
  - done.
  - rewrite dedup_loop_cons in Hx, Hy.
    destruct (decide (s ∈ seen)) as [Hs | Hs].
    + destruct (IH _ _ _ Hij Hx Hy) as (a & b & Ha & Hb & Hab).
      assert (x <> s /\ y <> s) as [Hxs Hys].
      { apply list_elem_of_lookup_2 in Hx, Hy.
        apply dedup_loop_elem in Hx as [_ Hx], Hy as [_ Hy].
        split; intros ->; done. }
      exists (S a), (S b). simpl.
      rewrite !decide_False, Ha, Hb by done. repeat split; lia.
    + destruct j as [|j]; [lia|]. simpl in Hy.
      assert (Hy' := Hy). apply list_elem_of_lookup_2, dedup_loop_elem in Hy'.
      destruct Hy' as [Hyl [Hys _]%not_elem_of_union].
      apply not_elem_of_singleton in Hys.
      destruct i as [|i].
      * simpl in Hx. injection Hx as <-.
        destruct (first_index_elem y l Hyl) as [b Hb].
        exists 0%nat, (S b). simpl.
        rewrite decide_True, decide_False, Hb by done.
        repeat split; lia.
      * simpl in Hx.
        assert (Hx' := Hx). apply list_elem_of_lookup_2, dedup_loop_elem in Hx'.
        destruct Hx' as [_ [Hxs _]%not_elem_of_union].
        apply not_elem_of_singleton in Hxs.
        destruct (IH _ i j ltac:(lia) Hx Hy) as (a & b & Ha & Hb & Hab).
        exists (S a), (S b). simpl.
        rewrite !decide_False, Ha, Hb by done. repeat split; lia.
Qed.

(** Scenario E of the specification. *)
Example dedup_loop_scenario :
  dedup_loop ["a.pdf"; "b.pdf"; "a.pdf"] ∅ [] = ["a.pdf"; "b.pdf"].
Proof. vm_compute. reflexivity. Qed.

End SourcesFacts.

(** ** The orchestrator *)

Module QueryFacts.
Import Text Guardrails RagPipeline Notions Scenarios TextFacts GuardrailFacts SourcesFacts.

Lemma guardrail_pass_iff (question : string) :
  format_guardrail_refusal question = None <-> is_office_related question None = true.
Proof.
  unfold format_guardrail_refusal. by destruct (is_office_related question None).
Qed.

Section Paths.
Context (settings : Settings) (search : string -> list Chunk)
        (requests_post : string -> Payload -> Z -> PostOutcome)
        (question : string) (company_terms : option (list string))
        (tr : list Event).

Lemma query_out_of_scope :
  is_office_related question None = false ->
  query settings search requests_post question company_terms tr
  = (Returned out_of_scope_result, tr).
Proof.
  intros H. unfold query, format_guardrail_refusal. rewrite H. reflexivity.
Qed.

Lemma query_no_context :
  is_office_related question None = true ->
  retrieved settings search question = [] ->
  query settings search requests_post question company_terms tr
  = (Returned no_context_result, searched question tr).
Proof.
  intros H Hf. unfold query, format_guardrail_refusal. rewrite H.
  cbn [negb]. cbv beta iota zeta delta [bind vector_store_search emit ret].
  fold (enhanced_query question). fold (retrieved settings search question).
  rewrite Hf. reflexivity.
Qed.

Lemma query_generate :
  is_office_related question None = true ->
  retrieved settings search question <> [] ->
  query settings search requests_post question company_terms tr
  = match generation settings search requests_post question with
    | ConnectionFailed =>
        (Raised (unreachable settings), posted settings search question tr)
    | Responded resp =>
        if status_code resp =? 200
        then (Returned (done_result (retrieved settings search question) resp),
              posted settings search question tr)
        else (Raised (bad_status resp), posted settings search question tr)
    end.
Proof.
  intros H Hf. unfold query, format_guardrail_refusal. rewrite H.
  cbn [negb].
  cbv beta iota zeta delta [bind vector_store_search call_ollama emit ret raise].
  fold (enhanced_query question). fold (retrieved settings search question).
  unfold generation, posted, searched.
  destruct (retrieved settings search question) as [|c cs] eqn:E; [done|].
  cbn [truthy_list negb].
  fold (chat_url settings). fold (chat_payload settings question (c :: cs)).
  destruct (requests_post _ _ _) as [|resp]; [reflexivity|].
  destruct (status_code resp =? 200); reflexivity.
Qed.

Lemma query_done (resp : Response) :
  format_guardrail_refusal question = None ->
  retrieved settings search question <> [] ->
  generation settings search requests_post question = Responded resp ->
  status_code resp = 200 ->
  query settings search requests_post question company_terms tr
  = (Returned (done_result (retrieved settings search question) resp),
     posted settings search question tr).
Proof.
  intros Hg%guardrail_pass_iff Hf Hgen Hst.
  rewrite (query_generate Hg Hf), Hgen, Hst. reflexivity.
Qed.

End Paths.

Lemma posts_app (a b : list Event) : posts (a ++ b) = (posts a + posts b)%nat.
Proof.
  induction a as [|[] a IH]; simpl; [done | done | by rewrite IH].
Qed.

Lemma posts_searched (question : string) (tr : list Event) :
  posts (searched question tr) = posts tr.
Proof. unfold searched. rewrite posts_app. simpl. lia. Qed.

Lemma posts_posted (settings : Settings) (search : string -> list Chunk)
      (question : string) (tr : list Event) :
  posts (posted settings search question tr) = S (posts tr).
Proof. unfold posted. rewrite posts_app, posts_searched. simpl. lia. Qed.

(** C1, on the code. [query] takes [company_terms] and never passes it on:
    the question below has no blocked phrase and contains the company term
    "acme", so [is_office_related] accepts it with the terms, yet [query]
    answers it with the out-of-scope refusal and [was_filtered = true],
    whatever the collaborators are. *)
Theorem query_drops_company_terms :
  let question := "tell me about acme" in
  let company_terms := Some ["acme"] in
  existsb (fun blocked => contains blocked (lower question)) BLOCKED_TOPICS = false /\
  contains (lower "acme") (lower question) = true /\
  is_office_related question company_terms = true /\
  forall settings search requests_post tr,
    query settings search requests_post question company_terms tr
    = (Returned {| answer := REFUSAL_OUT_OF_SCOPE; sources := [];
                   was_filtered := true |}, tr).
Proof.
  intros question company_terms.
  split; [by vm_compute|]. split; [by vm_compute|]. split; [by vm_compute|].
  intros settings search requests_post tr.
  apply query_out_of_scope. by vm_compute.
Qed.

(** The terms play no part in the result of [query]. *)
Lemma query_company_terms_unused settings search requests_post question terms tr :
  query settings search requests_post question terms tr
  = query settings search requests_post question None tr.
Proof. reflexivity. Qed.

(** The two failures on a concrete store: the error is the one raised by
    [call_ollama], and one request was posted. *)
Example query_raises_unreachable :
  fst (query default_settings store_abc offline dress_code None [])
  = Raised (ConnectionError
              "Cannot connect to Ollama at http://localhost:11434. Make sure Ollama is running (ollama serve).").
Proof. vm_compute. reflexivity. Qed.

Example query_raises_bad_status :
  fst (query default_settings store_abc overloaded dress_code None [])
  = Raised (RuntimeError "Ollama returned status 503: busy") /\
  posts (snd (query default_settings store_abc overloaded dress_code None [])) = 1%nat.
Proof. vm_compute. split; reflexivity. Qed.

(** Scenarios A, B and D of the specification. *)
Example query_scenario_A :
  fst (query default_settings store_abc (answers " Business casual. ") dress_code None [])
  = Returned {| answer := "Business casual."; sources := ["a.pdf"; "b.pdf"];
                was_filtered := false |}.
Proof. vm_compute. reflexivity. Qed.

Example query_scenario_B :
  fst (query default_settings store_abc offline
             "Does the office policy cover bitcoin?" None [])
  = Returned out_of_scope_result.
Proof. vm_compute. reflexivity. Qed.

Example query_scenario_D :
  fst (query default_settings store_abc
             (answers "As an AI, I don't have access to real-time data")
             dress_code None [])
  = Returned {| answer := REFUSAL_NO_CONTEXT; sources := ["a.pdf"; "b.pdf"];
                was_filtered := false |}.
Proof. vm_compute. reflexivity. Qed.

(** C6. When the question passes the guardrail and no retrieved chunk
    clears the relevance filter, [query] returns the no-context refusal with
    no sources and [was_filtered = false]; the only collaborator call it
    has made is the search, so nothing was sent to the generation
    endpoint. *)
Theorem query_no_relevant_context
  (settings : Settings) (search : string -> list Chunk)
  (requests_post : string -> Payload -> Z -> PostOutcome)
  (question : string) (company_terms : option (list string)) (tr : list Event) :
  format_guardrail_refusal question = None ->
  retrieved settings search question = [] ->
  query settings search requests_post question company_terms tr
  = (Returned {| answer := REFUSAL_NO_CONTEXT; sources := [];
                 was_filtered := false |},
     tr ++ [Searched (enhanced_query question)]) /\
  posts (snd (query settings search requests_post question company_terms tr))
  = posts tr.
Proof.
  intros Hg%guardrail_pass_iff Hf.
  rewrite (query_no_context settings search requests_post question
                            company_terms tr Hg Hf).
  split; [done|]. apply (posts_searched question tr).
Qed.

(** Scenario C of the specification: every chunk at distance 0.9 under the
    threshold 0.3. *)
Lemma query_no_relevant_context_witness :
  format_guardrail_refusal dress_code = None /\
  retrieved default_settings store_far dress_code = [] /\
  query default_settings store_far offline dress_code None []
  = (Returned {| answer := REFUSAL_NO_CONTEXT; sources := [];
                 was_filtered := false |},
     [] ++ [Searched (enhanced_query dress_code)]) /\
  posts (snd (query default_settings store_far offline dress_code None []))
  = posts [].
Proof.
  assert (H1 : format_guardrail_refusal dress_code = None) by (vm_compute; reflexivity).
  assert (H2 : retrieved default_settings store_far dress_code = [])
    by (vm_compute; reflexivity).
  split; [exact H1|]. split; [exact H2|].
  exact (query_no_relevant_context default_settings store_far offline
                                   dress_code None [] H1 H2).
Defined.

(** C8. In the Done state the sources of the result are the filename values
    of the filtered chunks without duplicates, each at the place of its
    first occurrence: no value is repeated, the values are those of the
    chunks, and two values come out in the order in which they first
    occur. *)
Theorem query_sources_deduplicated
  (settings : Settings) (search : string -> list Chunk)
  (requests_post : string -> Payload -> Z -> PostOutcome)
  (question : string) (company_terms : option (list string)) (tr : list Event)
  (resp : Response) :
  format_guardrail_refusal question = None ->
  retrieved settings search question <> [] ->
  generation settings search requests_post question = Responded resp ->
  status_code resp = 200 ->
  exists r,
    fst (query settings search requests_post question company_terms tr) = Returned r /\
    let names := map source_of (retrieved settings search question) in
    NoDup (sources r) /\
    (forall x, x ∈ sources r <-> x ∈ names) /\
    (forall i j x y, (i < j)%nat ->
       sources r !! i = Some x -> sources r !! j = Some y ->
       exists a b, first_index x names = Some a /\ first_index y names = Some b /\
                   (a < b)%nat).
Proof.
  intros Hg Hf Hgen Hst.
  rewrite (query_done settings search requests_post question company_terms tr
                      resp Hg Hf Hgen Hst).
  eexists. split; [done|]. cbn [sources done_result].
  split; [apply dedup_loop_NoDup|]. split.
  - intros x. rewrite dedup_loop_elem. split; [by intros [H _]|].
    intros H. split; [done|]. apply not_elem_of_empty.
  - intros i j x y. apply dedup_loop_order.
Qed.

(** Scenario E of the specification: filenames a.pdf, b.pdf, a.pdf. *)
Lemma query_sources_deduplicated_witness :
  map source_of (retrieved default_settings store_abc dress_code)
  = ["a.pdf"; "b.pdf"; "a.pdf"] /\
  exists r,
    fst (query default_settings store_abc (answers "Business casual.")
               dress_code None []) = Returned r /\
    let names := map source_of (retrieved default_settings store_abc dress_code) in
    NoDup (sources r) /\
    (forall x, x ∈ sources r <-> x ∈ names) /\
    (forall i j x y, (i < j)%nat ->
       sources r !! i = Some x -> sources r !! j = Some y ->
       exists a b, first_index x names = Some a /\ first_index y names = Some b /\
                   (a < b)%nat).
Proof.
  split; [vm_compute; reflexivity|].
  apply (query_sources_deduplicated default_settings store_abc
           (answers "Business casual.") dress_code None []
           (reply 200 "Business casual.")).
  - vm_compute; reflexivity.
  - vm_compute; discriminate.
  - reflexivity.
  - reflexivity.
Defined.

(** C10. In the Done state the sources list is not empty: every filtered
    chunk has its source in it, and a chunk whose metadata has no filename
    is listed under "Unknown". *)
Theorem query_done_sources_nonempty
  (settings : Settings) (search : string -> list Chunk)
  (requests_post : string -> Payload -> Z -> PostOutcome)
  (question : string) (company_terms : option (list string)) (tr : list Event)
  (resp : Response) :
  format_guardrail_refusal question = None ->
  retrieved settings search question <> [] ->
  generation settings search requests_post question = Responded resp ->
  status_code resp = 200 ->
  exists r,
    fst (query settings search requests_post question company_terms tr) = Returned r /\
    was_filtered r = false /\
    sources r <> [] /\
    (forall c, c ∈ retrieved settings search question -> source_of c ∈ sources r) /\
    (forall c, c ∈ retrieved settings search question ->
               metadata c !! "filename" = None -> "Unknown" ∈ sources r).
Proof.
  intros Hg Hf Hgen Hst.
  rewrite (query_done settings search requests_post question company_terms tr
                      resp Hg Hf Hgen Hst).
  eexists. split; [done|]. cbn [sources was_filtered done_result]. split; [done|].
  assert (Hall : forall c, c ∈ retrieved settings search question ->
                           source_of c ∈ dedup_loop
                             (map source_of (retrieved settings search question)) ∅ []).
  { intros c Hc. apply dedup_loop_elem. split; [|apply not_elem_of_empty].
    by apply list_elem_of_fmap_2. }
  split; [|split].
  - destruct (retrieved settings search question) as [|c cs] eqn:E; [done|].
    intros Hnil. specialize (Hall c ltac:(by left)). rewrite Hnil in Hall.
    by apply elem_of_nil in Hall.
  - exact Hall.
  - intros c Hc Hnone. specialize (Hall c Hc).
    unfold source_of in Hall at 1. by rewrite Hnone in Hall.
Qed.

Lemma query_done_sources_nonempty_witness :
  exists r,
    fst (query default_settings store_anonymous (answers "At reception.")
               "Where do I get a badge?" None []) = Returned r /\
    was_filtered r = false /\
    sources r <> [] /\
    (forall c, c ∈ retrieved default_settings store_anonymous "Where do I get a badge?" ->
               source_of c ∈ sources r) /\
    (forall c, c ∈ retrieved default_settings store_anonymous "Where do I get a badge?" ->
               metadata c !! "filename" = None -> "Unknown" ∈ sources r).
Proof.
  apply (query_done_sources_nonempty default_settings store_anonymous
           (answers "At reception.") "Where do I get a badge?" None []
           (reply 200 "At reception.")).
  - vm_compute; reflexivity.
  - vm_compute; discriminate.
  - reflexivity.
  - reflexivity.
Defined.

Example query_anonymous_chunk :
  fst (query default_settings store_anonymous (answers "At reception.")
             "Where do I get a badge?" None [])
  = Returned {| answer := "At reception."; sources := ["Unknown"];
                was_filtered := false |}.
Proof. vm_compute. reflexivity. Qed.

End QueryFacts.

(** * Further properties of the guardrail *)

Module GuardrailMore.
Import Text Guardrails Notions Phrases TextFacts GuardrailFacts.

Lemma lower_char_idempotent (c : ascii) : lower_char (lower_char c) = lower_char c.
Proof. destruct c as [[] [] [] [] [] [] [] []]; reflexivity. Qed.

Lemma lower_idempotent (s : string) : lower (lower s) = lower s.
Proof.
  induction s as [|c s IH]; simpl; [done|].
  by rewrite lower_char_idempotent, IH.
Qed.

Lemma existsb_ext_map {A B} (f : B -> bool) (g : A -> B) (l : list A) :
  existsb f (map g l) = existsb (fun x => f (g x)) l.
Proof. induction l as [|x l IH]; simpl; [done | by rewrite IH]. Qed.

Lemma truthy_list_map {A B} (g : A -> B) (l : list A) :
  truthy_list (map g l) = truthy_list l.
Proof. by destruct l. Qed.

(** X1. The classification is case-insensitive: a question and its
    lower-casing are classified alike, so are two questions that differ in
    case only, and the case of the company terms does not matter either. *)
Theorem is_office_related_case_insensitive
  (question : string) (company_terms : list string) (terms : option (list string)) :
  is_office_related (lower question) terms = is_office_related question terms /\
  (forall other, lower other = lower question ->
     is_office_related other terms = is_office_related question terms) /\
  is_office_related question (Some (map lower company_terms))
  = is_office_related question (Some company_terms).
Proof.
  split; [|split].
  - unfold is_office_related. by rewrite lower_idempotent.
  - intros other H. unfold is_office_related. by rewrite H.
  - unfold is_office_related. rewrite truthy_list_map, existsb_ext_map.
    replace (existsb (fun x => contains (lower (lower x)) (lower question)) company_terms)
      with (existsb (fun term => contains (lower term) (lower question)) company_terms);
      [done|].
    induction company_terms as [|t l IH]; simpl; [done|].
    by rewrite lower_idempotent, IH.
Qed.

Lemma not_blocked_spec (question : string) :
  has_blocked_topic question = false <->
  forall blocked, blocked ∈ BLOCKED_TOPICS -> ~ substring blocked (lower question).
Proof.
  unfold has_blocked_topic. rewrite existsb_none. split; intros H b Hb.
  - by apply contains_false, H.
  - by apply contains_false, H.
Qed.

(** X2. A question without blocked topic in which an office keyword occurs,
    also inside a longer word, is in scope whatever the company terms. *)
Theorem keyword_accepts
  (question keyword : string) (company_terms : option (list string)) :
  (forall blocked, blocked ∈ BLOCKED_TOPICS -> ~ substring blocked (lower question)) ->
  keyword ∈ OFFICE_KEYWORDS ->
  substring keyword (lower question) ->
  is_office_related question company_terms = true.
Proof.
  intros Hnb%not_blocked_spec Hin Hsub. unfold is_office_related.
  unfold has_blocked_topic in Hnb. rewrite Hnb.
  replace (existsb _ OFFICE_KEYWORDS) with true; [done|].
  symmetry. apply existsb_elem_of. exists keyword. by rewrite contains_spec.
Qed.

(** "form" inside "information". *)
Lemma keyword_accepts_witness :
  is_office_related "Any INFORMATION on lunch?" None = true.
Proof.
  apply (keyword_accepts "Any INFORMATION on lunch?" "form" None).
  - apply not_blocked_spec. vm_compute. reflexivity.
  - unfold OFFICE_KEYWORDS. repeat constructor.
  - exists "any in", "ation on lunch?". reflexivity.
Defined.

(** X3. A question without blocked topic in which a term of the given
    company terms occurs, in any case, is in scope. *)
Theorem company_term_accepts
  (question term : string) (company_terms : list string) :
  (forall blocked, blocked ∈ BLOCKED_TOPICS -> ~ substring blocked (lower question)) ->
  term ∈ company_terms ->
  substring (lower term) (lower question) ->
  is_office_related question (Some company_terms) = true.
Proof.
  intros Hnb%not_blocked_spec Hin Hsub. unfold is_office_related.
  unfold has_blocked_topic in Hnb. rewrite Hnb.
  destruct (existsb _ OFFICE_KEYWORDS); [done|].
  replace (truthy_list company_terms && _) with true; [done|].
  symmetry. apply andb_true_iff. split.
  - destruct company_terms; [by apply elem_of_nil in Hin | done].
  - apply existsb_elem_of. exists term. by rewrite contains_spec.
Qed.

Lemma company_term_accepts_witness :
  is_office_related "tell me about acme" None = false /\
  is_office_related "tell me about acme" (Some ["Globex"; "ACME"]) = true.
Proof.
  split; [vm_compute; reflexivity|].
  apply (company_term_accepts "tell me about acme" "ACME").
  - apply not_blocked_spec. vm_compute. reflexivity.
  - repeat constructor.
  - exists "tell me about ", "". reflexivity.
Defined.

(** X4. Company terms only widen the scope: an empty list of terms is the
    same as none, and a question in scope without terms stays in scope with
    any terms. *)
Theorem company_terms_only_widen
  (question : string) (company_terms : option (list string)) :
  is_office_related question (Some []) = is_office_related question None /\
  (is_office_related question None = true ->
   is_office_related question company_terms = true).
Proof.
  split; [done|]. unfold is_office_related.
  destruct (existsb _ BLOCKED_TOPICS); [done|].
  destruct (existsb _ OFFICE_KEYWORDS); [done|].
  intros H. rewrite H. by destruct (match company_terms with Some _ => _ | None => _ end).
Qed.

End GuardrailMore.

(** ** The fallback pattern *)

Module PatternFacts.
Import Text Guardrails Notions Phrases TextFacts.

Lemma strip_prefix_spec (p s r : string) :
  strip_prefix p s = Some r <-> s = p +:+ r.
Proof.
  revert s. induction p as [|a p IH]; intros s; simpl.
  - rewrite append_nil_l. split; congruence.
  - rewrite append_cons. destruct s as [|b s]; [done|].
    destruct (Ascii.eqb a b) eqn:E.
    + apply Ascii.eqb_eq in E as ->. rewrite IH. split; congruence.
    + apply Ascii.eqb_neq in E. split; [done | congruence].
Qed.

Lemma first_char_append (p s : string) :
  p <> EmptyString -> first_char (p +:+ s) = first_char p.
Proof. by destruct p. Qed.

Lemma last_char_cons (c : ascii) (p : string) :
  last_char (String c p)
  = match last_char p with Some d => Some d | None => Some c end.
Proof.
  destruct p as [|d p]; [done|].
  assert (H : exists e, last_char (String d p) = Some e).
  { clear c. revert d. induction p as [|e p IH]; intros d; [by exists d|].
    destruct (IH e) as [f Hf]. exists f. by rewrite <- Hf. }
  destruct H as [e He]. rewrite He. by rewrite <- He.
Qed.

Lemma nouns_end_in_word (noun : string) :
  noun ∈ OFFICE_NOUNS -> word_at (last_char noun) = true.
Proof.
  intros H. unfold OFFICE_NOUNS in H.
  repeat (apply elem_of_cons in H as [-> | H]; [reflexivity|]).
  by apply elem_of_nil in H.
Qed.

Lemma determiners_start_with_word (det : string) :
  det ∈ DETERMINERS -> det <> EmptyString /\ word_at (first_char det) = true.
Proof.
  intros H. unfold DETERMINERS in H.
  repeat (apply elem_of_cons in H as [-> | H]; [by split|]).
  by apply elem_of_nil in H.
Qed.

Lemma match_noun_spec (s : string) :
  match_noun s = true <->
  exists noun post, noun ∈ OFFICE_NOUNS /\ s = noun +:+ post /\
                    word_at (first_char post) = false.
Proof.
  unfold match_noun. rewrite existsb_elem_of. split.
  - intros (noun & Hin & H). destruct (strip_prefix noun s) as [rest|] eqn:E; [|done].
    apply strip_prefix_spec in E. exists noun, rest. repeat split; [done | done |].
    unfold word_boundary in H. rewrite (nouns_end_in_word _ Hin) in H.
    by destruct (word_at (first_char rest)).
  - intros (noun & post & Hin & -> & Hw). exists noun. split; [done|].
    replace (strip_prefix noun (noun +:+ post)) with (Some post)
      by (symmetry; by apply strip_prefix_spec).
    unfold word_boundary. by rewrite (nouns_end_in_word _ Hin), Hw.
Qed.

Lemma match_spaces_noun_spec (s : string) :
  match_spaces_noun s = true <->
  exists gap rest, s = gap +:+ rest /\ gap <> EmptyString /\
                   all_space gap = true /\ match_noun rest = true.
Proof.
  induction s as [|c s IH]; simpl.
  - split; [done|]. intros (gap & rest & H & Hne & _). by destruct gap.
  - rewrite andb_true_iff, orb_true_iff, IH. split.
    + intros [Hc [Hn | (gap & rest & -> & Hne & Hsp & Hn)]].
      * exists (String c EmptyString), s. repeat split; [done | | done].
        simpl. by rewrite Hc.
      * exists (String c gap), rest. repeat split; [done | | done].
        simpl. by rewrite Hc.
    + intros (gap & rest & H & Hne & Hsp & Hn).
      destruct gap as [|a gap]; [done|]. rewrite append_cons in H.
      injection H as <- ->. simpl in Hsp. apply andb_true_iff in Hsp as [Hc Hsp].
      split; [done|]. destruct gap as [|b gap].
      * by left.
      * right. by exists (String b gap), rest.
Qed.

Lemma match_here_spec (prev : option ascii) (s : string) :
  match_here prev s = true <->
  word_at prev = false /\
  exists det rest, det ∈ DETERMINERS /\ s = det +:+ rest /\
                   match_spaces_noun rest = true.
Proof.
  unfold match_here. rewrite andb_true_iff, existsb_elem_of. split.
  - intros [Hb (det & Hin & H)].
    destruct (strip_prefix det s) as [rest|] eqn:E; [|done].
    apply strip_prefix_spec in E as ->.
    destruct (determiners_start_with_word _ Hin) as [Hne Hw].
    unfold word_boundary in Hb. rewrite first_char_append, Hw in Hb by done.
    split; [by destruct (word_at prev)|]. by exists det, rest.
  - intros [Hp (det & rest & Hin & -> & H)].
    destruct (determiners_start_with_word _ Hin) as [Hne Hw]. split.
    + unfold word_boundary. by rewrite first_char_append, Hw, Hp.
    + exists det. split; [done|].
      by replace (strip_prefix det (det +:+ rest)) with (Some rest)
        by (symmetry; by apply strip_prefix_spec).
Qed.

(** A match somewhere in [s], [prev] being the character before [s]. *)
Lemma search_from_spec (prev : option ascii) (s : string) :
  search_from prev s = true <->
  exists pre rest, s = pre +:+ rest /\
    match_here (match last_char pre with Some c => Some c | None => prev end) rest = true.
Proof.
  revert prev. induction s as [|c s IH]; intros prev; simpl.
  - rewrite orb_false_r. split.
    + intros H. by exists EmptyString, EmptyString.
    + intros (pre & rest & H & Hm). destruct pre; [|done].
      rewrite append_nil_l in H. by subst rest.
  - rewrite orb_true_iff, IH. split.
    + intros [H | (pre & rest & -> & Hm)].
      * by exists EmptyString, (String c s).
      * exists (String c pre), rest. split; [done|]. rewrite last_char_cons.
        by destruct (last_char pre).
    + intros (pre & rest & H & Hm). destruct pre as [|a pre].
      * left. rewrite append_nil_l in H. by subst rest.
      * right. rewrite append_cons in H. injection H as <- ->.
        exists pre, rest. split; [done|]. rewrite last_char_cons in Hm.
        by destruct (last_char pre).
Qed.

Lemma office_noun_search_iff (s : string) :
  office_noun_search s = true <-> office_noun_phrase s.
Proof.
  unfold office_noun_search, office_noun_phrase. rewrite search_from_spec. split.
  - intros (pre & rest & -> & Hm).
    apply match_here_spec in Hm as [Hp (det & rest' & Hdet & -> & Hs)].
    apply match_spaces_noun_spec in Hs as (gap & rest'' & -> & Hne & Hsp & Hn).
    apply match_noun_spec in Hn as (noun & post & Hnoun & -> & Hw).
    exists pre, det, gap, noun, post. repeat split; try done.
    by destruct (last_char pre).
  - intros (pre & det & gap & noun & post & -> & Hdet & Hnoun & Hne & Hsp & Hp & Hw).
    exists pre, (det +:+ gap +:+ noun +:+ post). split; [done|].
    apply match_here_spec. split; [by destruct (last_char pre)|].
    exists det, (gap +:+ noun +:+ post). repeat split; [done|].
    apply match_spaces_noun_spec. exists gap, (noun +:+ post).
    repeat split; [done | done |]. apply match_noun_spec. by exists noun, post.
Qed.

(** X5. The fallback search of [is_office_related] succeeds exactly on the
    texts that contain a determiner (the, our, my, this), a non-empty run
    of whitespace and an office noun, as whole words: not preceded and not
    followed by a letter, digit or underscore. *)
Theorem office_noun_search_spec (s : string) :
  office_noun_search s = true <-> office_noun_phrase s.
Proof. apply office_noun_search_iff. Qed.

(** X6. The classification in full: a question is in scope exactly when
    its lower-casing contains no blocked topic and contains an office
    keyword, or a company term of the given list in lower case, or an
    office-noun phrase. *)
Theorem is_office_related_spec
  (question : string) (company_terms : option (list string)) :
  is_office_related question company_terms = true <->
  (forall blocked, blocked ∈ BLOCKED_TOPICS -> ~ substring blocked (lower question)) /\
  ((exists keyword, keyword ∈ OFFICE_KEYWORDS /\ substring keyword (lower question)) \/
   (exists terms term, company_terms = Some terms /\ term ∈ terms /\
                       substring (lower term) (lower question)) \/
   office_noun_phrase (lower question)).
Proof.
  unfold is_office_related.
  destruct (existsb _ BLOCKED_TOPICS) eqn:Hb.
  { split; [done|]. intros [Hnb _]. apply existsb_elem_of in Hb as (b & Hin & Hc).
    apply contains_spec in Hc. by destruct (Hnb b Hin). }
  assert (Hnb : forall blocked, blocked ∈ BLOCKED_TOPICS ->
                                ~ substring blocked (lower question)).
  { intros b Hin. apply contains_false. by apply (proj1 (existsb_none _ _) Hb). }
  destruct (existsb _ OFFICE_KEYWORDS) eqn:Hk.
  { split; [|done]. intros _. split; [done|]. left.
    apply existsb_elem_of in Hk as (k & Hin & Hc). exists k.
    by rewrite <- contains_spec. }
  assert (Hnk : ~ exists keyword, keyword ∈ OFFICE_KEYWORDS /\
                                  substring keyword (lower question)).
  { intros (k & Hin & Hs). apply contains_spec in Hs.
    by rewrite (proj1 (existsb_none _ _) Hk k Hin) in Hs. }
  destruct (match company_terms with Some _ => _ | None => _ end) eqn:Ht.
  { split; [|done]. intros _. split; [done|]. right. left.
    destruct company_terms as [terms|]; [|done].
    apply andb_true_iff in Ht as [_ Ht].
    apply existsb_elem_of in Ht as (t & Hin & Hc). exists terms, t.
    by rewrite <- contains_spec. }
  assert (Hnt : ~ exists terms term, company_terms = Some terms /\ term ∈ terms /\
                                     substring (lower term) (lower question)).
  { intros (terms & t & -> & Hin & Hs). apply contains_spec in Hs.
    apply andb_false_iff in Ht as [Ht | Ht].
    - destruct terms; [by apply elem_of_nil in Hin | done].
    - by rewrite (proj1 (existsb_none _ _) Ht t Hin) in Hs. }
  rewrite <- office_noun_search_iff.
  destruct (office_noun_search (lower question)).
  - split; [|done]. intros _. split; [done|]. by right; right.
  - split; [done|]. intros [_ [H | [H | H]]]; done.
Qed.

(** The phrase needs whole words and real whitespace. *)
Example office_noun_search_examples :
  office_noun_search "where is my   team?" = true /\
  office_noun_search "where is my teams" = false /\
  office_noun_search "tummy team" = false /\
  office_noun_search "our_company" = false.
Proof. vm_compute. repeat split. Qed.

End PatternFacts.

(** * Further properties of the pipeline *)

Module PipelineMore.
Import Text Guardrails RagPipeline Notions Phrases Scenarios MoreScenarios.
Import TextFacts GuardrailFacts ContextFacts SourcesFacts QueryFacts GuardrailMore.

(** ** The validator *)

Lemma validate_response_no_marker {C} (response : string) (chunks : list C) :
  has_marker (validate_response response chunks) = false.
Proof.
  unfold has_marker, validate_response.
  destruct chunks as [|c chunks]; cbn [truthy_list negb].
  - apply refusal_has_no_marker.
  - destruct (existsb (fun marker => contains marker (lower response))
                      hallucination_markers) eqn:E; [|exact E].
    apply refusal_has_no_marker.
Qed.

(** X7. Whatever the response and the chunks, the text that
    [validate_response] returns contains no hallucination marker. *)
Theorem validate_response_clean {C} (response : string) (chunks : list C) :
  has_marker (validate_response response chunks) = false.
Proof. apply validate_response_no_marker. Qed.

(** ** Context assembly *)

Lemma build_context_loop_all (budget : Z) (chunks : list Chunk) (total : Z) :
  total + total_len (map entry_of chunks) <= budget ->
  build_context_loop budget chunks [] total = map entry_of chunks.
Proof.
  revert total. induction chunks as [|c chunks IH]; intros total H; [done|].
  cbn [map total_len fold_right] in H. fold (total_len (map entry_of chunks)) in H.
  pose proof (total_len_nonneg (map entry_of chunks)).
  cbn [build_context_loop].
  replace (total + len (entry_of c) >? budget) with false by lia.
  rewrite build_context_loop_app, IH by lia. done.
Qed.

(** X8. When the entries of all chunks together fit the budget, the context
    is all of them, in order, joined by the separator. *)
Theorem build_context_all_fit
  (settings : Settings) (chunks : list Chunk) (max_tokens : option Z) :
  total_len (map entry_of chunks) <= int_or max_tokens (max_context_tokens settings) * 4 ->
  build_context settings chunks max_tokens = join SEPARATOR (map entry_of chunks).
Proof.
  intros H. unfold build_context. by rewrite build_context_loop_all by lia.
Qed.

Lemma build_context_all_fit_witness :
  build_context default_settings two_chunks None
  = join SEPARATOR (map entry_of two_chunks).
Proof.
  apply (build_context_all_fit default_settings two_chunks None).
  vm_compute. discriminate.
Defined.

(** X9. The loop stops at the first entry that does not fit: when the entry
    of the first chunk alone exceeds the budget the context is empty, however
    small the chunks after it are. *)
Theorem build_context_first_too_long
  (settings : Settings) (chunk : Chunk) (rest : list Chunk) (max_tokens : option Z) :
  len (entry_of chunk) > int_or max_tokens (max_context_tokens settings) * 4 ->
  build_context settings (chunk :: rest) max_tokens = EmptyString.
Proof.
  intros H. unfold build_context. cbn [build_context_loop].
  by replace (0 + len (entry_of chunk) >? _) with true by lia.
Qed.

(** A budget of sixteen characters against a first entry of twenty: the
    second chunk is not looked at. *)
Lemma build_context_first_too_long_witness :
  build_context default_settings two_chunks (Some 4) = EmptyString.
Proof.
  apply (build_context_first_too_long default_settings _ _ (Some 4)).
  vm_compute. reflexivity.
Defined.

Lemma build_context_loop_mono (b1 b2 : Z) (chunks : list Chunk) (total : Z) :
  b1 <= b2 ->
  exists more,
    build_context_loop b2 chunks [] total = build_context_loop b1 chunks [] total ++ more.
Proof.
  intros Hb. revert total. induction chunks as [|c chunks IH]; intros total.
  - by exists [].
  - cbn [build_context_loop].
    destruct (total + len (entry_of c) >? b1) eqn:E1; [by eexists|].
    replace (total + len (entry_of c) >? b2) with false by lia.
    rewrite (build_context_loop_app b2), (build_context_loop_app b1).
    destruct (IH (total + len (entry_of c))) as [more ->].
    exists more. by rewrite app_assoc.
Qed.

Lemma join_app (sep : string) (l k : list string) :
  exists tail, join sep (l ++ k) = join sep l +:+ tail.
Proof.
  induction l as [|p l IH].
  - by exists (join sep k).
  - destruct l as [|q l].
    + destruct k as [|r k].
      * exists EmptyString. simpl. by rewrite append_empty_r.
      * by exists (sep +:+ join sep (r :: k)).
    + destruct IH as [tail IH]. exists tail.
      change ((p :: q :: l) ++ k) with (p :: ((q :: l) ++ k)).
      rewrite (join_cons sep p ((q :: l) ++ k)) by done.
      rewrite (join_cons sep p (q :: l)) by done.
      by rewrite IH, !append_assoc.
Qed.

(** X10. A larger budget only appends to the context: the context built
    under the smaller [max_context_tokens] is the beginning of the one built
    under the larger. *)
Theorem build_context_monotone
  (small large : Settings) (chunks : list Chunk) :
  max_context_tokens small <= max_context_tokens large ->
  exists tail,
    build_context large chunks None = build_context small chunks None +:+ tail.
Proof.
  intros H. unfold build_context. cbn [int_or].
  destruct (build_context_loop_mono (max_context_tokens small * 4)
              (max_context_tokens large * 4) chunks 0 ltac:(lia)) as [more ->].
  apply join_app.
Qed.

Lemma build_context_monotone_witness :
  exists tail,
    build_context default_settings two_chunks None
    = build_context tight_settings two_chunks None +:+ tail.
Proof.
  apply (build_context_monotone tight_settings default_settings two_chunks).
  vm_compute. discriminate.
Defined.

(** ** The generation client *)

Lemma lstrip_first (s : string) (c : ascii) :
  first_char (lstrip s) = Some c -> is_space c = false.
Proof.
  induction s as [|a s IH]; simpl; [done|].
  destruct (is_space a) eqn:E; [done|]. simpl. congruence.
Qed.

Lemma rstrip_first (s : string) (c : ascii) :
  first_char (rstrip s) = Some c -> first_char s = Some c.
Proof.
  destruct s as [|a s]; simpl; [done|].
  destruct (rstrip s); [|done]. by destruct (is_space a).
Qed.

Lemma rstrip_last (s : string) (c : ascii) :
  last_char (rstrip s) = Some c -> is_space c = false.
Proof.
  induction s as [|a s IH]; [done|]. cbn [rstrip].
  destruct (rstrip s) as [|b r] eqn:E.
  - destruct (is_space a) eqn:Ea; [done|]. simpl. congruence.
  - change (last_char (String a (String b r))) with (last_char (String b r)).
    exact IH.
Qed.

(** No whitespace at either end. *)
Lemma strip_ends (s : string) :
  (forall c, first_char (strip s) = Some c -> is_space c = false) /\
  (forall c, last_char (strip s) = Some c -> is_space c = false).
Proof.
  unfold strip. split; intros c H.
  - by apply rstrip_first, lstrip_first in H.
  - by apply rstrip_last in H.
Qed.






Example call_ollama_trims :
  fst (call_ollama default_settings (answers "  Business casual. ") [] [])
  = Returned "Business casual." /\
  fst (call_ollama default_settings (fun _ _ _ => Responded empty_body) [] [])
  = Returned "".
Proof. vm_compute. split; reflexivity. Qed.

(** ** The de-duplication loop *)

Lemma dedup_loop_fresh (l : list string) (seen : gset string) :
  NoDup l -> (forall x, x ∈ l -> x ∉ seen) -> dedup_loop l seen [] = l.
Proof.
  revert seen. induction l as [|s l IH]; intros seen Hnd Hfresh; [done|].
  apply NoDup_cons in Hnd as [Hs Hnd]. rewrite dedup_loop_cons.
  rewrite decide_False by (apply Hfresh; by left). f_equal.
  apply IH; [done|]. intros x Hx. rewrite not_elem_of_union, not_elem_of_singleton.
  split; [by intros -> | apply Hfresh; by right].
Qed.

Lemma dedup_loop_length (l : list string) (seen : gset string) :
  (length (dedup_loop l seen []) <= length l)%nat.
Proof.
  revert seen. induction l as [|s l IH]; intros seen; [done|].
  rewrite dedup_loop_cons. destruct (decide (s ∈ seen)); simpl.
  - specialize (IH seen). lia.
  - specialize (IH ({[s]} ∪ seen)). lia.
Qed.

(** X12. The de-duplication loop of [query] leaves a list without
    duplicates as it is, is idempotent, and never lengthens the list. *)
Theorem dedup_loop_stable (sources : list string) :
  (NoDup sources -> dedup_loop sources ∅ [] = sources) /\
  dedup_loop (dedup_loop sources ∅ []) ∅ [] = dedup_loop sources ∅ [] /\
  (length (dedup_loop sources ∅ []) <= length sources)%nat.
Proof.
  assert (Hfresh : forall l : list string, NoDup l -> dedup_loop l ∅ [] = l).
  { intros l Hl. apply dedup_loop_fresh; [done|]. intros x _. apply not_elem_of_empty. }
  split; [apply Hfresh|]. split; [|apply dedup_loop_length].
  apply Hfresh, dedup_loop_NoDup.
Qed.

End PipelineMore.

(** * Further properties of the orchestrator *)

Module QueryMore.
Import Text Guardrails RagPipeline Notions Phrases Scenarios MoreScenarios.
Import TextFacts GuardrailFacts ContextFacts SourcesFacts QueryFacts.
Import GuardrailMore PipelineMore.

Section Outcomes.
Context (settings : Settings) (search : string -> list Chunk)
        (requests_post : string -> Payload -> Z -> PostOutcome)
        (question : string) (company_terms : option (list string))
        (tr : list Event).

(** The five ways through [query]. *)
Lemma query_outcomes :
  let run := query settings search requests_post question company_terms tr in
  let filtered := retrieved settings search question in
  let gen := generation settings search requests_post question in
  (is_office_related question None = false /\
   run = (Returned out_of_scope_result, tr)) \/
  (is_office_related question None = true /\ filtered = [] /\
   run = (Returned no_context_result, searched question tr)) \/
  (is_office_related question None = true /\ filtered <> [] /\
   gen = ConnectionFailed /\
   run = (Raised (unreachable settings), posted settings search question tr)) \/
  (exists resp,
     is_office_related question None = true /\ filtered <> [] /\
     gen = Responded resp /\ status_code resp <> 200 /\
     run = (Raised (bad_status resp), posted settings search question tr)) \/
  (exists resp,
     is_office_related question None = true /\ filtered <> [] /\
     gen = Responded resp /\ status_code resp = 200 /\
     run = (Returned (done_result filtered resp), posted settings search question tr)).
Proof.
  intros run filtered gen.
  destruct (is_office_related question None) eqn:H1.
  - right. destruct (decide (filtered = [])) as [H2 | H2].
    + left. repeat split; [done|]. by apply query_no_context.
    + right. unfold run.
      rewrite (query_generate settings search requests_post question
                              company_terms tr H1 H2).
      fold gen. destruct gen as [|resp] eqn:Hg.
      * left. by repeat split.
      * right. destruct (status_code resp =? 200) eqn:E.
        -- right. exists resp. repeat split; [done | lia].
        -- left. exists resp. repeat split; [done | lia].
  - left. split; [done|]. by apply query_out_of_scope.
Qed.

End Outcomes.

Lemma done_sources_nonempty (filtered : list Chunk) (resp : Response) :
  filtered <> [] -> sources (done_result filtered resp) <> [].
Proof.
  intros Hne Hnil. destruct filtered as [|c cs]; [done|].
  assert (H : source_of c ∈ sources (done_result (c :: cs) resp)).
  { cbn [sources done_result]. apply dedup_loop_elem.
    split; [by left | apply not_elem_of_empty]. }
  rewrite Hnil in H. by apply elem_of_nil in H.
Qed.

(** X13. A question with a blocked topic never reaches a collaborator:
    [query] answers with the out-of-scope refusal and leaves the trace as it
    was, with no search and no generation request. *)
Theorem query_blocked_question
  (settings : Settings) (search : string -> list Chunk)
  (requests_post : string -> Payload -> Z -> PostOutcome)
  (question blocked : string) (company_terms : option (list string))
  (tr : list Event) :
  blocked ∈ BLOCKED_TOPICS ->
  substring blocked (lower question) ->
  query settings search requests_post question company_terms tr
  = (Returned {| answer := REFUSAL_OUT_OF_SCOPE; sources := [];
                 was_filtered := true |}, tr).
Proof.
  intros Hin Hsub. apply query_out_of_scope. unfold is_office_related.
  replace (existsb _ BLOCKED_TOPICS) with true; [done|].
  symmetry. apply existsb_elem_of. exists blocked. by rewrite contains_spec.
Qed.

(** Scenario B of the specification, with keywords around the blocked one. *)
Lemma query_blocked_question_witness :
  query default_settings store_abc offline
        "Does the office policy cover Bitcoin?" (Some ["bitcoin"]) []
  = (Returned {| answer := REFUSAL_OUT_OF_SCOPE; sources := [];
                 was_filtered := true |}, []).
Proof.
  apply (query_blocked_question default_settings store_abc offline
           "Does the office policy cover Bitcoin?" "bitcoin").
  - unfold BLOCKED_TOPICS. repeat constructor.
  - exists "does the office policy cover ", "?". reflexivity.
Defined.

(** X14. In a result of [query], [was_filtered] is set exactly when the
    guardrail rejected the question, and then the result is the fixed
    out-of-scope refusal and no collaborator was called. *)
Theorem query_was_filtered
  (settings : Settings) (search : string -> list Chunk)
  (requests_post : string -> Payload -> Z -> PostOutcome)
  (question : string) (company_terms : option (list string))
  (tr tr' : list Event) (r : QueryResult) :
  query settings search requests_post question company_terms tr = (Returned r, tr') ->
  (was_filtered r = true <-> is_office_related question None = false) /\
  (was_filtered r = true -> r = out_of_scope_result /\ tr' = tr).
Proof.
  intros Hrun.
  destruct (query_outcomes settings search requests_post question company_terms tr)
    as [[H1 H] | [(H1 & H2 & H) | [(H1 & H2 & H3 & H) |
        [(resp & H1 & H2 & H3 & H4 & H) | (resp & H1 & H2 & H3 & H4 & H)]]]];
    rewrite H in Hrun; try discriminate;
    injection Hrun as <- <-; rewrite H1; cbn [was_filtered]; by repeat split.
Qed.

Lemma query_was_filtered_witness :
  (was_filtered out_of_scope_result = true <->
   is_office_related "tell me about acme" None = false) /\
  (was_filtered out_of_scope_result = true ->
   out_of_scope_result = out_of_scope_result /\ ([] : list Event) = []).
Proof.
  apply (query_was_filtered default_settings store_abc offline
           "tell me about acme" (Some ["acme"]) [] [] out_of_scope_result).
  vm_compute. reflexivity.
Defined.

(** A returned result is the out-of-scope refusal, without sources, or is
    not filtered. *)
Lemma query_was_filtered_or_not
  (settings : Settings) (search : string -> list Chunk)
  (requests_post : string -> Payload -> Z -> PostOutcome)
  (question : string) (company_terms : option (list string))
  (tr tr' : list Event) (r : QueryResult) :
  query settings search requests_post question company_terms tr = (Returned r, tr') ->
  (was_filtered r = true /\ sources r = []) \/ was_filtered r = false.
Proof.
  intros Hrun.
  destruct (query_outcomes settings search requests_post question company_terms tr)
    as [[H1 H] | [(H1 & H2 & H) | [(H1 & H2 & H3 & H) |
        [(resp & H1 & H2 & H3 & H4 & H) | (resp & H1 & H2 & H3 & H4 & H)]]]];
    rewrite H in Hrun; try discriminate; injection Hrun as <- <-;
    [by left | by right | by right].
Qed.

(** X15. [query] calls the vector store at most once, with the question
    behind the prefix "office information: ", and posts at most one
    generation request, after the search, carrying the prompt built from the
    filtered chunks: the trace it leaves is the one it got, extended by
    nothing, by the search, or by the search and the request. *)
Theorem query_trace
  (settings : Settings) (search : string -> list Chunk)
  (requests_post : string -> Payload -> Z -> PostOutcome)
  (question : string) (company_terms : option (list string)) (tr : list Event) :
  let after := snd (query settings search requests_post question company_terms tr) in
  let filtered := retrieved settings search question in
  after = tr \/
  after = tr ++ [Searched ("office information: " +:+ question)] \/
  after = tr ++ [Searched ("office information: " +:+ question);
                 Posted (ollama_base_url settings +:+ "/api/chat")
                        {| model := ollama_model settings;
                           messages := build_prompt
                                         (build_context settings filtered None)
                                         question;
                           stream := false;
                           options_temperature := temperature settings |}
                        (ollama_timeout settings)].
Proof.
  intros after filtered. unfold after.
  assert (Hposted : posted settings search question tr
                    = tr ++ [Searched ("office information: " +:+ question);
                             Posted (ollama_base_url settings +:+ "/api/chat")
                               {| model := ollama_model settings;
                                  messages := build_prompt
                                                (build_context settings filtered None)
                                                question;
                                  stream := false;
                                  options_temperature := temperature settings |}
                               (ollama_timeout settings)]).
  { unfold posted, searched. by rewrite <- app_assoc. }
  destruct (query_outcomes settings search requests_post question company_terms tr)
    as [[H1 H] | [(H1 & H2 & H) | [(H1 & H2 & H3 & H) |
        [(resp & H1 & H2 & H3 & H4 & H) | (resp & H1 & H2 & H3 & H4 & H)]]]];
    rewrite H; cbn [snd]; rewrite <- ?Hposted; auto.
Qed.

(** X16. Every answer that [query] returns is free of hallucination markers
    and has no whitespace at either end. *)
Theorem query_answer_clean
  (settings : Settings) (search : string -> list Chunk)
  (requests_post : string -> Payload -> Z -> PostOutcome)
  (question : string) (company_terms : option (list string))
  (tr : list Event) (r : QueryResult) :
  fst (query settings search requests_post question company_terms tr) = Returned r ->
  has_marker (answer r) = false /\
  (forall c, first_char (answer r) = Some c -> is_space c = false) /\
  (forall c, last_char (answer r) = Some c -> is_space c = false).
Proof.
  intros Hrun.
  assert (Hrefusal : forall s, s = REFUSAL_OUT_OF_SCOPE \/ s = REFUSAL_NO_CONTEXT ->
            has_marker s = false /\
            (forall c, first_char s = Some c -> is_space c = false) /\
            (forall c, last_char s = Some c -> is_space c = false)).
  { intros s [-> | ->]; (split; [by vm_compute|]);
      split; intros c [= <-]; by vm_compute. }
  destruct (query_outcomes settings search requests_post question company_terms tr)
    as [[H1 H] | [(H1 & H2 & H) | [(H1 & H2 & H3 & H) |
        [(resp & H1 & H2 & H3 & H4 & H) | (resp & H1 & H2 & H3 & H4 & H)]]]];
    rewrite H in Hrun; try discriminate; injection Hrun as <-.
  - apply Hrefusal. by left.
  - apply Hrefusal. by right.
  - cbn [answer done_result]. split; [apply validate_response_no_marker|].
    destruct (validate_response_either (raw_text resp)
                (retrieved settings search question)) as [-> | ->].
    + unfold raw_text. apply strip_ends.
    + apply Hrefusal. by right.
Qed.

(** Scenario D of the specification: the reply is replaced. *)
Lemma query_answer_clean_witness :
  has_marker REFUSAL_NO_CONTEXT = false /\
  (forall c, first_char REFUSAL_NO_CONTEXT = Some c -> is_space c = false) /\
  (forall c, last_char REFUSAL_NO_CONTEXT = Some c -> is_space c = false).
Proof.
  apply (query_answer_clean default_settings store_abc
           (answers "  As an AI, I don't have access to real-time data ")
           dress_code None []
           {| answer := REFUSAL_NO_CONTEXT; sources := ["a.pdf"; "b.pdf"];
              was_filtered := false |}).
  vm_compute. reflexivity.
Defined.

(** X17. A result of [query] has no sources exactly when no generation
    request was made, and then it is one of the two fixed refusals; a result
    that went through generation always names a source. *)
Theorem query_sources_iff_generated
  (settings : Settings) (search : string -> list Chunk)
  (requests_post : string -> Payload -> Z -> PostOutcome)
  (question : string) (company_terms : option (list string))
  (tr tr' : list Event) (r : QueryResult) :
  query settings search requests_post question company_terms tr = (Returned r, tr') ->
  (sources r = [] <-> posts tr' = posts tr) /\
  (sources r = [] -> r = out_of_scope_result \/ r = no_context_result) /\
  (sources r <> [] -> posts tr' = S (posts tr)).
Proof.
  intros Hrun.
  destruct (query_outcomes settings search requests_post question company_terms tr)
    as [[H1 H] | [(H1 & H2 & H) | [(H1 & H2 & H3 & H) |
        [(resp & H1 & H2 & H3 & H4 & H) | (resp & H1 & H2 & H3 & H4 & H)]]]];
    rewrite H in Hrun; try discriminate; injection Hrun as <- <-.
  - split; [done|]. split; [by left | done].
  - rewrite posts_searched. split; [done|]. split; [by right | done].
  - rewrite posts_posted. pose proof (done_sources_nonempty _ resp H2) as Hne.
    split; [split; [done | lia]|]. split; done.
Qed.

Lemma query_sources_iff_generated_witness :
  (sources no_context_result = [] <->
   posts [Searched (enhanced_query dress_code)] = posts []) /\
  (sources no_context_result = [] ->
   no_context_result = out_of_scope_result \/ no_context_result = no_context_result) /\
  (sources no_context_result <> [] ->
   posts [Searched (enhanced_query dress_code)] = S (posts [])).
Proof.
  apply (query_sources_iff_generated default_settings store_far offline
           dress_code None [] _ no_context_result).
  vm_compute. reflexivity.
Defined.

(** X18. Chunks beyond the cut-off have no influence: two stores whose
    answers to the search leave the same chunks after the relevance filter
    give the same outcome of [query] and the same trace. *)
Theorem query_depends_on_filtered
  (settings : Settings) (search search' : string -> list Chunk)
  (requests_post : string -> Payload -> Z -> PostOutcome)
  (question : string) (company_terms : option (list string)) (tr : list Event) :
  retrieved settings search question = retrieved settings search' question ->
  query settings search requests_post question company_terms tr
  = query settings search' requests_post question company_terms tr.
Proof.
  intros Heq.
  destruct (is_office_related question None) eqn:H1;
    [|by rewrite !query_out_of_scope].
  destruct (decide (retrieved settings search question = [])) as [H2 | H2].
  - rewrite !query_no_context; [done | done | by rewrite <- Heq | done | done].
  - rewrite !query_generate; [|done | by rewrite <- Heq | done | done].
    unfold generation, posted. by rewrite Heq.
Qed.

Lemma query_depends_on_filtered_witness :
  query default_settings store_abc (answers "Business casual.") dress_code None []
  = query default_settings store_abc_far (answers "Business casual.") dress_code None [].
Proof.
  apply (query_depends_on_filtered default_settings store_abc store_abc_far).
  vm_compute. reflexivity.
Defined.

End QueryMore.

(** * The vector store *)

Module VectorStoreFacts.
Import Text RagPipeline VectorStore.

Lemma range_from_bound (fuel start stop step s : nat) :
  s ∈ range_from fuel start stop step -> (start <= s < stop)%nat.
Proof.
  revert start. induction fuel as [|fuel IH]; intros start; simpl.
  - intros H. by apply elem_of_nil in H.
  - destruct (start <? stop)%nat eqn:E; [|intros H; by apply elem_of_nil in H].
    apply Nat.ltb_lt in E. intros [-> | H]%elem_of_cons; [lia|].
    apply IH in H. lia.
Qed.

(** The slices taken at the starts of the range tile the list. *)
Lemma slices_cover {A} (l : list A) (n step fuel start : nat) :
  (0 < step)%nat -> length l = n -> (n - start <= fuel)%nat ->
  concat (map (fun s => slice l s (s + step)) (range_from fuel start n step))
  = drop start l.
Proof.
  intros Hstep Hlen. revert start.
  induction fuel as [|fuel IH]; intros start Hfuel; simpl.
  - symmetry. apply drop_ge. lia.
  - destruct (start <? n)%nat eqn:E.
    + simpl. rewrite IH by lia. unfold slice.
      replace (start + step - start)%nat with step by lia.
      rewrite <- (take_drop step (drop start l)) at 2.
      by rewrite drop_drop.
    + apply Nat.ltb_ge in E. symmetry. apply drop_ge. lia.
Qed.

Lemma slices_cover_all {A} (l : list A) (n step : nat) :
  (0 < step)%nat -> length l = n ->
  concat (map (fun s => slice l s (s + step)) (range_step n step)) = l.
Proof.
  intros Hstep Hlen. unfold range_step. rewrite slices_cover by (done || lia).
  done.
Qed.

Lemma length_enumerate_from {A B} (f : nat -> A -> B) (i : nat) (l : list A) :
  length (enumerate_from f i l) = length l.
Proof. revert i. induction l as [|x l IH]; intros i; simpl; [done | by rewrite IH]. Qed.

Lemma length_slice {A} (l : list A) (start step : nat) :
  length (slice l start (start + step)) = Nat.min step (length l - start).
Proof.
  unfold slice. replace (start + step - start)%nat with step by lia.
  by rewrite length_take, length_drop.
Qed.

(** X19. [add_documents] returns the number of documents and passes every
    document on exactly once and in order: the ids, texts and metadata of
    the successive [upsert] calls, put end to end, are those of the
    documents (and so are the embeddings when the embedder returns one per
    text); every call carries between 1 and 500 documents, with as many ids
    and metadata; and for no documents there is no call. *)
Theorem add_documents_batches
  (encode : list string -> list Embedding) (hash : string -> Z)
  (docs : list Document) :
  let texts := map page_content docs in
  let count := fst (add_documents encode hash docs) in
  let upserts := snd (add_documents encode hash docs) in
  count = Z.of_nat (length docs) /\
  concat (map up_documents upserts) = texts /\
  concat (map up_metadatas upserts) = map doc_metadata docs /\
  concat (map ids upserts) = enumerate_from (doc_id hash) 0 texts /\
  (length (encode texts) = length docs ->
   concat (map up_embeddings upserts) = encode texts) /\
  Forall (fun u => (1 <= length (up_documents u) <= 500)%nat /\
                   length (ids u) = length (up_documents u) /\
                   length (up_metadatas u) = length (up_documents u)) upserts /\
  (docs = [] -> upserts = []).
Proof.
  intros texts count upserts. unfold count, upserts, add_documents.
  destruct docs as [|d docs].
  { cbn [truthy_list negb fst snd map concat].
    repeat split;
      first [done | constructor | intros He; symmetry; by apply nil_length_inv]. }
  cbn [truthy_list negb fst snd]. fold texts.
  set (n := length texts).
  assert (Hn : n = length (d :: docs)) by (unfold n, texts; by rewrite length_map).
  assert (Hstep : (0 < BATCH_SIZE)%nat) by (unfold BATCH_SIZE; lia).
  rewrite !map_map. cbn [ids up_documents up_embeddings up_metadatas].
  split; [by rewrite Hn|].
  split; [by apply slices_cover_all|].
  split; [apply slices_cover_all; [done | by rewrite length_map]|].
  split; [apply slices_cover_all; [done | by rewrite length_enumerate_from]|].
  split; [intros He; apply slices_cover_all; [done | by rewrite He]|].
  split; [|done].
  apply Forall_map, Forall_forall. intros s Hs.
  apply range_from_bound in Hs. cbn [ids up_documents up_metadatas].
  rewrite !length_slice, length_enumerate_from, length_map.
  fold n. rewrite <- Hn. unfold BATCH_SIZE. lia.
Qed.

(** X20. When the collection answers with as many metadata and distances as
    documents, [search] returns one chunk per document, the i-th made of the
    i-th text, metadata and distance. *)
Theorem search_pairs
  (settings : Settings) (encode : list string -> list Embedding)
  (collection_query : list Embedding -> Z -> QueryResults)
  (query : string) (top_k : option Z)
  (docs : list string) (metas : list (gmap string string)) (dists : list float)
  (more_docs : list (list string)) (more_metas : list (list (gmap string string)))
  (more_dists : list (list float)) :
  collection_query (encode [query]) (int_or top_k (retrieval_top_k settings))
  = {| documents := docs :: more_docs; metadatas := metas :: more_metas;
       distances := dists :: more_dists |} ->
  length metas = length docs ->
  length dists = length docs ->
  exists chunks,
    search settings encode collection_query query top_k = Some chunks /\
    map text chunks = docs /\
    map metadata chunks = metas /\
    map distance chunks = dists.
Proof.
  intros Hq Hm Hd. unfold search. rewrite Hq. cbn [documents metadatas distances].
  destruct docs as [|t docs].
  - destruct metas; [|done]. destruct dists; [|done]. by exists [].
  - cbn [truthy_list]. eexists. split; [done|].
    clear Hq. revert metas dists Hm Hd.
    generalize (t :: docs). clear t docs.
    induction l as [|t docs IH]; intros [|m metas] [|d dists] Hm Hd; try done.
    simpl in Hm, Hd. destruct (IH metas dists) as (H1 & H2 & H3); [lia | lia |].
    simpl. by rewrite H1, H2, H3.
Qed.

(** X21. [search] fails, on the index into an empty list, exactly when the
    collection reports a non-empty first group of documents but no group of
    metadata or no group of distances; in particular, with no document group
    or an empty first one it returns the empty list without looking at
    metadata and distances. *)
Theorem search_fails_iff
  (settings : Settings) (encode : list string -> list Embedding)
  (collection_query : list Embedding -> Z -> QueryResults)
  (query : string) (top_k : option Z) :
  let results := collection_query (encode [query])
                                  (int_or top_k (retrieval_top_k settings)) in
  (search settings encode collection_query query top_k = None <->
   exists first more,
     documents results = first :: more /\ first <> [] /\
     (metadatas results = [] \/ distances results = [])) /\
  ((documents results = [] \/ exists more, documents results = [] :: more) ->
   search settings encode collection_query query top_k = Some []).
Proof.
  intros results. unfold search. fold results. split.
  - destruct (documents results) as [|first more].
    + split; [done | by intros (f & m & ? & _)].
    + destruct first as [|t first]; cbn [truthy_list].
      * split; [done|]. intros (f & m & [= <- <-] & Hne & _). done.
      * destruct (metadatas results) as [|metas ?].
        -- split; [|done]. intros _. exists (t :: first), more. by auto.
        -- destruct (distances results) as [|dists ?].
           ++ split; [|done]. intros _. exists (t :: first), more. by auto.
           ++ split; [done|]. by intros (f & m & _ & _ & [? | ?]).
  - by intros [-> | [more ->]].
Qed.

End VectorStoreFacts.

Module VectorStoreWitnesses.
Import Text RagPipeline VectorStore Scenarios MoreScenarios VectorStoreFacts.

Lemma search_pairs_witness :
  exists chunks,
    search default_settings embed_zero collection_two "badge" None = Some chunks /\
    map text chunks = ["Badges are issued at reception."; "Parking opens at seven."] /\
    map metadata chunks = [ {[ "filename" := "badges.txt" ]};
                            {[ "filename" := "parking.pdf" ]} ] /\
    map distance chunks = [ 0x1.999999999999ap-3%float; 0x1.3333333333333p-2%float ].
Proof.
  apply (search_pairs default_settings embed_zero collection_two "badge" None
                      _ _ _ [] [] []); reflexivity.
Defined.

Example search_empty_first_group :
  search default_settings embed_zero collection_empty "badge" (Some 3) = Some [].
Proof. reflexivity. Qed.

End VectorStoreWitnesses.

(** * The HTTP handlers *)

Module ApiServerFacts.
Import Text Guardrails RagPipeline Notions Scenarios MoreScenarios.
Import QueryFacts QueryMore ApiServer ServerNotions.

Section Handlers.
Context (settings : Settings) (name : string)
        (requests_post : string -> Payload -> Z -> PostOutcome)
        (new_pipeline : Pipeline).




End Handlers.


(** X23. [POST /query] answers 503 exactly when the generation endpoint is
    unreachable, with the message of the [ConnectionError] as detail; an
    answer with a status other than 200 is not handled and escapes as the
    [RuntimeError]; a question the guardrail rejects gets a normal body with
    [was_filtered] set. *)
Theorem api_query_reply
  (settings : Settings)
  (requests_post : string -> Payload -> Z -> PostOutcome)
  (new_pipeline : Pipeline) (request : QueryRequest) (st : Server) :
  let pipeline := fst (get_pipeline new_pipeline st) in
  let reply := fst (ApiServer.query settings requests_post new_pipeline request st) in
  let filtered := retrieved settings (vs_search pipeline) (question request) in
  let gen := generation settings (vs_search pipeline) requests_post (question request) in
  (forall status detail,
     reply = HTTPException status detail <->
     status = 503 /\ ConnectionError detail = unreachable settings /\
     is_office_related (question request) None = true /\ filtered <> [] /\
     gen = ConnectionFailed) /\
  (forall e,
     reply = Uncaught e <->
     exists resp,
       e = bad_status resp /\
       is_office_related (question request) None = true /\ filtered <> [] /\
       gen = Responded resp /\ status_code resp <> 200) /\
  (is_office_related (question request) None = false ->
   reply = QueryResponse out_of_scope_result).
Proof.
  intros pipeline reply filtered gen. unfold reply, ApiServer.query.
  unfold filtered, gen, pipeline.
  destruct (get_pipeline new_pipeline st) as [p st1]. cbn [fst].
  destruct (query_outcomes settings (vs_search p) requests_post (question request)
                           (company_terms request) (calls st1))
    as [[H1 H] | [(H1 & H2 & H) | [(H1 & H2 & H3 & H) |
        [(resp & H1 & H2 & H3 & H4 & H) | (resp & H1 & H2 & H3 & H4 & H)]]]];
    rewrite H; cbn [fst unreachable bad_status]; rewrite ?H1.
  - split; [|split]; [| |done].
    + intros status detail. split; [done | by intros (_ & _ & ? & _)].
    + intros e. split; [done | by intros (resp & _ & ? & _)].
  - split; [|split]; [| |done].
    + intros status detail. split; [done | by intros (_ & _ & _ & ? & _)].
    + intros e. split; [done | by intros (resp & _ & _ & ? & _)].
  - split; [|split]; [| |done].
    + intros status detail. split.
      * intros [= <- <-]. by repeat split.
      * intros (-> & [= ->] & _). done.
    + intros e. split; [done|]. intros (resp & _ & _ & _ & Hg & _). congruence.
  - split; [|split]; [| |done].
    + intros status detail. split; [done|]. intros (_ & _ & _ & _ & Hg). congruence.
    + intros e. split.
      * intros [= <-]. exists resp. by repeat split.
      * intros (resp' & -> & _ & _ & Hg & _). rewrite H3 in Hg.
        injection Hg as <-. done.
  - split; [|split]; [| |done].
    + intros status detail. split; [done|]. intros (_ & _ & _ & _ & Hg). congruence.
    + intros e. split; [done|].
      intros (resp' & _ & _ & _ & Hg & Hne). rewrite H3 in Hg.
      injection Hg as <-. done.
Qed.

(** The first request of a server whose generation endpoint is down. *)
Example api_query_unreachable :
  fst (ApiServer.query default_settings offline pipeline_abc
         {| question := dress_code; company_terms := None |} startup)
  = HTTPException 503
      "Cannot connect to Ollama at http://localhost:11434. Make sure Ollama is running (ollama serve).".
Proof. vm_compute. reflexivity. Qed.

End ApiServerFacts.

(** * The interactive client *)

Module QueryCliFacts.
Import Text Guardrails RagPipeline Notions Scenarios MoreScenarios.
Import TextFacts QueryFacts QueryMore QueryCli CliNotions.

Section Cli.
Context (settings : Settings) (search : string -> list Chunk) (count : Z)
        (requests_post : string -> Payload -> Z -> PostOutcome).

Local Abbreviation loop := (interactive_loop settings search requests_post).

Lemma is_quit_truthy (question : string) :
  is_quit question = true -> truthy_str question = true.
Proof. by destruct question. Qed.

(** The loop ends on a farewell. *)
Lemma interactive_loop_goodbye (inputs : list Input) (c : Console) :
  exists out, stdout (loop inputs c) = out +:+ "Goodbye!" +:+ nl.
Proof.
  revert c. induction inputs as [|input inputs IH]; intros c.
  - exists (stdout c +:+ "You: " +:+ nl). cbn. by rewrite !append_assoc.
  - destruct input as [raw| |].
    + cbn [interactive_loop].
      destruct (negb (truthy_str (strip raw))); [apply IH|].
      destruct (is_quit (strip raw)).
      * eexists. cbn [print write stdout]. done.
      * destruct (query _ _ _ _ _ _) as [[r | [msg | msg]] tr]; apply IH.
    + exists (stdout c +:+ "You: " +:+ nl). cbn. by rewrite !append_assoc.
    + exists (stdout c +:+ "You: " +:+ nl). cbn. by rewrite !append_assoc.
Qed.

(** Nothing behind a stopping input is read. *)
Lemma interactive_loop_stop (before after : list Input) (stop : Input) (c : Console) :
  is_stop stop = true ->
  loop (before ++ stop :: after) c = loop (before ++ [stop]) c.
Proof.
  intros Hstop. revert c. induction before as [|input before IH]; intros c.
  - destruct stop as [raw| |]; [|done|done].
    cbn [app interactive_loop]. cbn [is_stop] in Hstop.
    by rewrite Hstop, (is_quit_truthy _ Hstop).
  - destruct input as [raw| |]; [|done|done].
    cbn [app interactive_loop].
    destruct (negb (truthy_str (strip raw))); [apply IH|].
    destruct (is_quit (strip raw)); [done|].
    destruct (query _ _ _ _ _ _) as [[r | [msg | msg]] tr]; apply IH.
Qed.

Lemma events_print_result (r : QueryResult) (c : Console) :
  events (print_result r c) = events c.
Proof.
  unfold print_result. by destruct (truthy_list (sources r)), (was_filtered r).
Qed.

(** The calls made depend on the console through its trace only. *)
Lemma interactive_loop_events_ext (inputs : list Input) (c c' : Console) :
  events c = events c' -> events (loop inputs c) = events (loop inputs c').
Proof.
  revert c c'. induction inputs as [|input inputs IH]; intros c c' He; [done|].
  destruct input as [raw| |]; [|done|done].
  cbn [interactive_loop].
  destruct (negb (truthy_str (strip raw))); [apply IH; exact He|].
  destruct (is_quit (strip raw)); [exact He|].
  change (events (write "You: " c)) with (events c).
  change (events (write "You: " c')) with (events c'). rewrite He.
  destruct (query _ _ _ _ _ _) as [[r | [msg | msg]] tr]; apply IH;
    by rewrite ?events_print_result.
Qed.

Lemma interactive_loop_blank (inputs : list Input) (c : Console) :
  events (loop inputs c)
  = events (loop (List.filter (fun input => negb (is_blank input)) inputs) c).
Proof.
  revert c. induction inputs as [|input inputs IH]; intros c; [done|].
  destruct input as [raw| |]; [|done|done].
  cbn [List.filter is_blank]. rewrite negb_involutive.
  destruct (truthy_str (strip raw)) eqn:E.
  - cbn [interactive_loop]. rewrite E. cbn [negb].
    destruct (is_quit (strip raw)); [done|].
    destruct (query _ _ _ _ _ _) as [[r | [msg | msg]] tr]; apply IH.
  - cbn [interactive_loop]. rewrite E. cbn [negb]. rewrite <- IH.
    by apply interactive_loop_events_ext.
Qed.

End Cli.

(** X24. The interactive loop ends at the first end of file, interrupt or
    quit word (quit, exit or q in any case, whitespace around it ignored):
    whatever follows it in the input is not read, and the session closes
    with the farewell line. *)
Theorem interactive_mode_stops
  (settings : Settings) (search : string -> list Chunk)
  (requests_post : string -> Payload -> Z -> PostOutcome)
  (before after : list Input) (stop : Input) (c : Console) :
  is_stop stop = true ->
  interactive_mode settings search requests_post (before ++ stop :: after) c
  = interactive_mode settings search requests_post (before ++ [stop]) c /\
  exists out,
    stdout (interactive_mode settings search requests_post
                             (before ++ stop :: after) c)
    = out +:+ "Goodbye!" +:+ nl.
Proof.
  intros Hstop. unfold interactive_mode. split.
  - by apply interactive_loop_stop.
  - apply interactive_loop_goodbye.
Qed.

Lemma interactive_mode_stops_witness :
  interactive_mode default_settings store_abc offline
    ([Line "  "; Line dress_code] ++ Line "  QUIT " :: [Line dress_code])
    {| stdout := ""; events := [] |}
  = interactive_mode default_settings store_abc offline
      ([Line "  "; Line dress_code] ++ [Line "  QUIT "])
      {| stdout := ""; events := [] |} /\
  exists out,
    stdout (interactive_mode default_settings store_abc offline
              ([Line "  "; Line dress_code] ++ Line "  QUIT " :: [Line dress_code])
              {| stdout := ""; events := [] |})
    = out +:+ "Goodbye!" +:+ nl.
Proof.
  apply (interactive_mode_stops default_settings store_abc offline
           [Line "  "; Line dress_code] [Line dress_code] (Line "  QUIT ")).
  reflexivity.
Defined.

(** X25. Blank lines cost nothing: the collaborator calls of an interactive
    session are those of the session without its blank lines. *)
Theorem interactive_mode_skips_blank
  (settings : Settings) (search : string -> list Chunk)
  (requests_post : string -> Payload -> Z -> PostOutcome)
  (inputs : list Input) (c : Console) :
  events (interactive_mode settings search requests_post inputs c)
  = events (interactive_mode settings search requests_post
              (List.filter (fun input => negb (is_blank input)) inputs) c).
Proof. unfold interactive_mode. apply interactive_loop_blank. Qed.

(** X26. What [print_result] writes for a result of [query]: a blank line,
    the answer, then the out-of-scope note for a filtered result or else,
    when there are sources, a blank line and the sources separated by
    commas, and a closing blank line. The note and the sources line never
    come together. *)
Theorem print_result_of_query
  (settings : Settings) (search : string -> list Chunk)
  (requests_post : string -> Payload -> Z -> PostOutcome)
  (question : string) (company_terms : option (list string))
  (tr tr' : list Event) (r : QueryResult) (c : Console) :
  query settings search requests_post question company_terms tr = (Returned r, tr') ->
  ~ (was_filtered r = true /\ sources r <> []) /\
  stdout (print_result r c)
  = stdout c +:+ nl +:+ answer r +:+ nl +:+
    (if was_filtered r then "(Question was outside office scope)" +:+ nl
     else match sources r with
          | [] => ""
          | _ => nl +:+ "Sources: " +:+ join ", " (sources r) +:+ nl
          end) +:+ nl.
Proof.
  intros Hrun.
  destruct (query_was_filtered_or_not settings search requests_post question
              company_terms tr tr' r Hrun) as [[Hf Hs] | Hf].
  - split; [by intros [_ H]|]. unfold print_result. rewrite Hf, Hs.
    cbn [truthy_list print write stdout]. by rewrite !append_assoc.
  - split; [intros [H _]; congruence|]. unfold print_result. rewrite Hf.
    destruct (sources r) as [|s ss]; cbn [truthy_list print write stdout];
      by rewrite !append_assoc.
Qed.

Lemma print_result_of_query_witness :
  ~ (was_filtered out_of_scope_result = true /\ sources out_of_scope_result <> []) /\
  stdout (print_result out_of_scope_result {| stdout := ""; events := [] |})
  = "" +:+ nl +:+ answer out_of_scope_result +:+ nl +:+
    (if was_filtered out_of_scope_result
     then "(Question was outside office scope)" +:+ nl
     else match sources out_of_scope_result with
          | [] => ""
          | _ => nl +:+ "Sources: " +:+ join ", " (sources out_of_scope_result) +:+ nl
          end) +:+ nl.
Proof.
  apply (print_result_of_query default_settings store_abc offline
           "What about bitcoin?" None [] [] out_of_scope_result
           {| stdout := ""; events := [] |}).
  vm_compute. reflexivity.
Defined.

(** X27. With arguments [main] asks one question, the arguments joined by
    spaces, does not read standard input, and lets a failure of the pipeline
    escape; without arguments it runs the interactive loop and never
    raises. *)
Theorem main_modes
  (settings : Settings) (search : string -> list Chunk) (count : Z)
  (requests_post : string -> Payload -> Z -> PostOutcome)
  (args : list string) (inputs : list Input) (c : Console) :
  let started := print ("Vector store contains " +:+ str_of_int count +:+
                        " document chunks." +:+ nl) c in
  let asked := query settings search requests_post (join " " args) None
                     (events started) in
  (args <> [] ->
   main settings search count requests_post args inputs c
   = main settings search count requests_post args [] c /\
   events (snd (main settings search count requests_post args inputs c)) = snd asked /\
   (forall e, fst (main settings search count requests_post args inputs c) = Raised e <->
              fst asked = Raised e)) /\
  (args = [] ->
   main settings search count requests_post args inputs c
   = (Returned tt, interactive_mode settings search requests_post inputs started)).
Proof.
  intros started asked. split.
  - intros Hne. unfold main. fold started.
    destruct args as [|a args]; [done|]. cbn [truthy_list].
    fold asked. destruct asked as [[r | e] tr]; cbn [fst snd].
    + split; [done|]. split; [apply events_print_result|].
      intros e. split; discriminate.
    + split; [done|]. split; [done|]. intros e'. split; congruence.
  - by intros ->.
Qed.

(** One-shot mode against an endpoint that is down. *)
Example main_one_shot_unreachable :
  fst (main default_settings store_abc 3 offline ["dress"; "code"; "policy"] []
            {| stdout := ""; events := [] |})
  = Raised (unreachable default_settings).
Proof. vm_compute. reflexivity. Qed.

End QueryCliFacts.

(** * The ingestion tool *)

Module IngestFacts.
Import Text RagPipeline VectorStore Ingest CliNotions.

Lemma parse_args_fold (docs_dir : string) (reset : bool) (args : list string) :
  fold_left
    (fun '(docs_dir, reset) arg =>
       if String.eqb arg "--reset" then (docs_dir, true)
       else if negb (starts_with "-" arg) then (arg, reset)
       else (docs_dir, reset))
    args (docs_dir, reset)
  = (default docs_dir (last (List.filter is_dir_arg args)),
     reset || existsb (String.eqb "--reset") args).
Proof.
  revert docs_dir reset. induction args as [|arg args IH]; intros docs_dir reset.
  - simpl. by rewrite orb_false_r.
  - cbn [fold_left List.filter existsb].
    destruct (String.eqb arg "--reset") eqn:E.
    + apply String.eqb_eq in E as ->. rewrite IH. cbn. by rewrite orb_true_r.
    + rewrite String.eqb_sym, E. cbn [orb]. unfold is_dir_arg at 1.
      destruct (negb (starts_with "-" arg)); rewrite IH; [|done].
      rewrite last_cons. by destruct (last (List.filter is_dir_arg args)).
Qed.

(** X28. The argument loop of [ingest.py]: the documents directory is the
    last argument that does not start with a dash, or the configured one
    when there is none, and the store is to be reset exactly when
    "--reset" is among the arguments; other dashed arguments are ignored. *)
Theorem parse_args_spec (docs_dir : string) (args : list string) :
  fst (parse_args docs_dir args)
  = default docs_dir (last (List.filter is_dir_arg args)) /\
  (snd (parse_args docs_dir args) = true <-> "--reset" ∈ args).
Proof.
  unfold parse_args. rewrite parse_args_fold. cbn [fst snd orb]. split; [done|].
  rewrite existsb_exists. split.
  - intros (x & Hin & ->%String.eqb_eq). by apply list_elem_of_In.
  - intros Hin. exists "--reset". split; [by apply list_elem_of_In | done].
Qed.

Example parse_args_example :
  parse_args "documents" ["old"; "--reset"; "-v"; "new"; "--dry-run"] = ("new", true).
Proof. reflexivity. Qed.

(** X29. [main] touches the vector store only after a successful load: it
    exits with status 1, the store unopened, when the directory does not
    exist (then nothing is loaded either) or no chunk comes out of it;
    otherwise it returns normally after opening the store, resetting it
    first exactly when asked to, adding all the chunks in one call and
    counting. *)
Theorem main_store_actions
  (settings : IngestSettings)
  (path_exists : string -> bool) (path_resolve path_str : string -> string)
  (load_and_chunk_documents : string -> Z -> Z -> list Document)
  (store_add_documents : list Document -> Z) (store_count : Z)
  (args : list string) :
  let docs_dir := fst (parse_args (documents_dir settings) args) in
  let reset := snd (parse_args (documents_dir settings) args) in
  let chunks := load_and_chunk_documents (path_str docs_dir) (chunk_size settings)
                                         (chunk_overlap settings) in
  let run := main settings path_exists path_resolve path_str
                  load_and_chunk_documents store_add_documents store_count args in
  (path_exists docs_dir = false ->
   run = (Some 1, [Printed ("Error: Documents directory not found: " +:+ docs_dir)])) /\
  (path_exists docs_dir = true -> chunks = [] ->
   fst run = Some 1 /\ List.filter is_store_action (snd run) = []) /\
  (path_exists docs_dir = true -> chunks <> [] ->
   fst run = None /\
   List.filter is_store_action (snd run)
   = StoreOpened :: (if reset then [StoreReset] else [])
     ++ [StoreAdded chunks; StoreCounted]).
Proof.
  intros docs_dir reset chunks run. unfold run, main.
  unfold chunks, docs_dir, reset.
  destruct (parse_args (documents_dir settings) args) as [dir rst]. cbn [fst snd].
  split; [by intros ->|]. split.
  - intros -> ->. cbn. done.
  - intros -> Hne. cbn [negb].
    destruct (load_and_chunk_documents _ _ _) as [|d ds]; [done|].
    cbn [truthy_list negb fst snd]. split; [done|].
    by destruct rst.
Qed.

End IngestFacts.

(** * Failures that leave the orchestrator *)

Module UnhandledFacts.
Import Text Guardrails RagPipeline Notions Phrases Scenarios MoreScenarios.
Import TextFacts GuardrailFacts QueryFacts PipelineMore.
Import Unhandled UnhandledNotions.

Section Paths.
Context (settings : Settings) (search : string -> Result (list Chunk))
        (requests_post : string -> Payload -> Z -> PostResult)
        (question : string) (company_terms : option (list string))
        (tr : list Event).

Local Abbreviation run :=
  (Unhandled.query settings search requests_post question company_terms tr).

Lemma rejected_path :
  is_office_related question None = false ->
  run = (Done out_of_scope_result, tr).
Proof.
  intros H. unfold Unhandled.query, format_guardrail_refusal. rewrite H. reflexivity.
Qed.

Lemma search_failed_path (e : Error) :
  is_office_related question None = true ->
  search (enhanced_query question) = Failed e ->
  run = (Failed e, searched question tr).
Proof.
  intros H Hs. unfold Unhandled.query, format_guardrail_refusal. rewrite H.
  cbn [negb].
  cbv beta iota zeta delta [Unhandled.bind Unhandled.vector_store_search
                            Unhandled.emit Unhandled.lift].
  fold (enhanced_query question). by rewrite Hs.
Qed.

Lemma no_context_path (chunks : list Chunk) :
  is_office_related question None = true ->
  search (enhanced_query question) = Done chunks ->
  filter_chunks settings chunks = [] ->
  run = (Done no_context_result, searched question tr).
Proof.
  intros H Hs Hf. unfold Unhandled.query, format_guardrail_refusal. rewrite H.
  cbn [negb].
  cbv beta iota zeta delta [Unhandled.bind Unhandled.vector_store_search
                            Unhandled.emit Unhandled.lift Unhandled.ret].
  fold (enhanced_query question). rewrite Hs. cbv beta iota. by rewrite Hf.
Qed.

Lemma generate_path (chunks : list Chunk) :
  is_office_related question None = true ->
  search (enhanced_query question) = Done chunks ->
  filter_chunks settings chunks <> [] ->
  run
  = (match chat_request settings requests_post question
                        (filter_chunks settings chunks) with
     | PostConnectionError => Failed (Own (unreachable settings))
     | PostRaised e => Failed e
     | PostReturned resp =>
         if http_status resp =? 200 then
           match reply_text resp with
           | Done text => Done (answered (filter_chunks settings chunks) text)
           | Failed e => Failed e
           end
         else Failed (Own (status_error resp))
     end,
     searched question tr
     ++ [request_event settings question (filter_chunks settings chunks)]).
Proof.
  intros H Hs Hf. unfold Unhandled.query, format_guardrail_refusal. rewrite H.
  cbn [negb].
  cbv beta iota zeta delta [Unhandled.bind Unhandled.vector_store_search
                            Unhandled.call_ollama Unhandled.emit Unhandled.lift
                            Unhandled.ret Unhandled.fail].
  fold (enhanced_query question). rewrite Hs. cbv beta iota.
  unfold chat_request, request_event, searched, reply_text.
  destruct (filter_chunks settings chunks) as [|c cs] eqn:E; [done|].
  cbn [truthy_list negb].
  fold (chat_url settings). fold (chat_payload settings question (c :: cs)).
  destruct (requests_post _ _ _) as [|e|resp]; [reflexivity | reflexivity |].
  destruct (http_status resp =? 200); [|reflexivity]. cbn [negb].
  destruct (http_json resp) as [data|e]; [|reflexivity].
  destruct (py_get data "message" (JObject ∅)) as [message|e]; [|reflexivity].
  destruct (py_get message "content" (JString "")) as [content|e]; [|reflexivity].
  destruct (py_strip content); reflexivity.
Qed.

End Paths.

Lemma posts_request (settings : Settings) (question : string)
      (filtered : list Chunk) (tr : list Event) :
  posts (searched question tr ++ [request_event settings question filtered])
  = S (posts tr).
Proof. rewrite posts_app, posts_searched. simpl. lia. Qed.

(** C5, as stated, fails. With the store of the scenarios and an endpoint
    that lets the request time out, [query] fails on the dress-code
    question although the endpoint was reached and returned no status at
    all: [call_ollama] catches [requests.ConnectionError] only, and the
    [ReadTimeout] of [requests.post] leaves [query] as it is. *)
Lemma query_read_timeout_escapes :
  ~ (forall e,
       fst (Unhandled.query default_settings (answering store_abc) times_out
                            dress_code None []) = Failed e ->
       chat_request default_settings times_out dress_code
                    (filter_chunks default_settings (store_abc (enhanced_query dress_code)))
       = PostConnectionError \/
       exists resp,
         chat_request default_settings times_out dress_code
                      (filter_chunks default_settings (store_abc (enhanced_query dress_code)))
         = PostReturned resp /\ http_status resp <> 200).
Proof.
  intros H.
  destruct (H (Other "requests.exceptions.ReadTimeout")) as [Hc | (resp & Hr & _)].
  - vm_compute. reflexivity.
  - discriminate Hc.
  - discriminate Hr.
Qed.

(** C5, amended. The three soft conditions are absorbed: an out-of-scope
    question, an empty filtered set and a reply with a hallucination marker
    each give a returned result carrying the fixed refusal. The two
    service-layer failures leave [query] as failures, as the
    [ConnectionError] and the [RuntimeError] of [call_ollama], after a
    single request. They are not the only ones: [query] catches nothing,
    so an exception of the search, any other exception of [requests.post],
    and a failure to decode the reply or to read its content leave [query]
    unchanged as well. *)
Theorem query_failure_propagation
  (settings : Settings) (search : string -> Result (list Chunk))
  (requests_post : string -> Payload -> Z -> PostResult)
  (question : string) (company_terms : option (list string)) (tr : list Event) :
  let run := Unhandled.query settings search requests_post question company_terms tr in
  let found := search (enhanced_query question) in
  let request := chat_request settings requests_post question in
  (* absorbed *)
  (is_office_related question None = false ->
   run = (Done out_of_scope_result, tr)) /\
  (forall chunks,
     is_office_related question None = true -> found = Done chunks ->
     filter_chunks settings chunks = [] ->
     run = (Done no_context_result, searched question tr)) /\
  (forall chunks resp text marker,
     is_office_related question None = true -> found = Done chunks ->
     filter_chunks settings chunks <> [] ->
     request (filter_chunks settings chunks) = PostReturned resp ->
     http_status resp = 200 -> reply_text resp = Done text ->
     marker ∈ hallucination_markers -> substring marker (lower text) ->
     exists r, fst run = Done r /\ answer r = REFUSAL_NO_CONTEXT /\
               was_filtered r = false) /\
  (* the two service-layer failures *)
  (forall chunks,
     is_office_related question None = true -> found = Done chunks ->
     filter_chunks settings chunks <> [] ->
     request (filter_chunks settings chunks) = PostConnectionError ->
     fst run = Failed (Own (unreachable settings)) /\
     posts (snd run) = S (posts tr)) /\
  (forall chunks resp,
     is_office_related question None = true -> found = Done chunks ->
     filter_chunks settings chunks <> [] ->
     request (filter_chunks settings chunks) = PostReturned resp ->
     http_status resp <> 200 ->
     fst run = Failed (Own (status_error resp)) /\
     posts (snd run) = S (posts tr)) /\
  (* the failures that nothing catches *)
  (forall e,
     is_office_related question None = true -> found = Failed e ->
     run = (Failed e, searched question tr)) /\
  (forall chunks e,
     is_office_related question None = true -> found = Done chunks ->
     filter_chunks settings chunks <> [] ->
     request (filter_chunks settings chunks) = PostRaised e ->
     fst run = Failed e /\ posts (snd run) = S (posts tr)) /\
  (forall chunks resp e,
     is_office_related question None = true -> found = Done chunks ->
     filter_chunks settings chunks <> [] ->
     request (filter_chunks settings chunks) = PostReturned resp ->
     http_status resp = 200 -> reply_text resp = Failed e ->
     fst run = Failed e /\ posts (snd run) = S (posts tr)).
Proof.
  intros run found request. unfold run, found, request.
  split; [apply rejected_path|].
  split; [intros chunks; apply no_context_path|].
  split; [|split; [|split; [|split; [|split]]]].
  - intros chunks resp text marker H1 H2 H3 H4 H5 H6 Hm Hsub.
    rewrite (generate_path _ _ _ _ _ _ chunks H1 H2 H3), H4, H5, H6.
    cbn [Z.eqb Pos.eqb fst]. eexists. split; [done|]. split; [|done].
    cbn [answer answered]. apply validate_response_refuses. right. by exists marker.
  - intros chunks H1 H2 H3 H4.
    rewrite (generate_path _ _ _ _ _ _ chunks H1 H2 H3), H4. cbn [fst snd].
    split; [done | apply posts_request].
  - intros chunks resp H1 H2 H3 H4 H5.
    rewrite (generate_path _ _ _ _ _ _ chunks H1 H2 H3), H4.
    replace (http_status resp =? 200) with false by lia. cbn [fst snd].
    split; [done | apply posts_request].
  - intros e. apply search_failed_path.
  - intros chunks e H1 H2 H3 H4.
    rewrite (generate_path _ _ _ _ _ _ chunks H1 H2 H3), H4. cbn [fst snd].
    split; [done | apply posts_request].
  - intros chunks resp e H1 H2 H3 H4 H5 H6.
    rewrite (generate_path _ _ _ _ _ _ chunks H1 H2 H3), H4, H5, H6.
    cbn [Z.eqb Pos.eqb fst snd]. split; [done | apply posts_request].
Qed.

(** The failures that nothing catches, one of each kind. *)
Example query_search_error_escapes :
  fst (Unhandled.query default_settings store_broken times_out dress_code None [])
  = Failed (Other "IndexError").
Proof. vm_compute. reflexivity. Qed.

Example query_null_message_escapes :
  fst (Unhandled.query default_settings (answering store_abc) null_message
                       dress_code None [])
  = Failed (Other "AttributeError").
Proof. vm_compute. reflexivity. Qed.

Lemma reply_text_decoded (data : gmap string (gmap string string)) :
  reply_text {| http_status := 200; http_text := EmptyString;
                http_json := Done (decoded data) |}
  = Done (strip (default EmptyString (default ∅ (data !! "message") !! "content"))).
Proof.
  unfold reply_text, decoded. cbn [http_json py_get]. rewrite lookup_fmap.
  destruct (data !! "message") as [message|]; cbn [fmap option_fmap option_map
                                                   from_option id py_get].
  - rewrite lookup_fmap. by destruct (message !! "content").
  - by rewrite !lookup_empty.
Qed.

(** On collaborators that behave, the two embeddings of [query] agree: same
    outcome, same trace. *)
Lemma query_agrees
  (settings : Settings) (search : string -> list Chunk)
  (requests_post : string -> Payload -> Z -> PostOutcome)
  (question : string) (company_terms : option (list string)) (tr : list Event) :
  Unhandled.query settings (answering search) (well_behaved requests_post)
                  question company_terms tr
  = (returned (fst (RagPipeline.query settings search requests_post question
                                      company_terms tr)),
     snd (RagPipeline.query settings search requests_post question company_terms tr)).
Proof.
  destruct (is_office_related question None) eqn:H1;
    [|by rewrite rejected_path, QueryFacts.query_out_of_scope].
  destruct (decide (retrieved settings search question = [])) as [H2 | H2].
  - rewrite (no_context_path _ _ _ _ _ _ (search (enhanced_query question)))
      by done.
    by rewrite QueryFacts.query_no_context.
  - rewrite (generate_path _ _ _ _ _ _ (search (enhanced_query question)))
      by done.
    rewrite QueryFacts.query_generate by done.
    unfold chat_request, well_behaved, generation, posted, request_event.
    fold (retrieved settings search question).
    destruct (requests_post _ _ _) as [|resp]; [done|].
    cbn [http_status]. destruct (status_code resp =? 200); [|done].
    unfold reply_text. cbn [http_json].
    pose proof (reply_text_decoded (json resp)) as Hr.
    unfold reply_text in Hr. cbn [http_json] in Hr. rewrite Hr. done.
Qed.

End UnhandledFacts.
